(** * NGGMRS repeater KML service: a model of [main.py] and its properties

    The program polls a JSON endpoint, turns the node list into a KML
    document ([build_kml]) whose marker icons depend on the keyed flag and on
    the age of the last report ([icon_href]), writes the document to a file
    and re-arms a timer ([update_kml]).

    The values handled by the program are the ones [json.loads] produces;
    the effects (wall clock, network, output file, standard output, timers)
    are threaded through an explicit [world]. *)

From Stdlib Require Import ZArith List String Ascii Bool Lia.
From Stdlib Require Import Floats.SpecFloat.
From Stdlib Require Import Numbers.DecimalString.
Import ListNotations.
Local Open Scope string_scope.
Local Open Scope Z_scope.

Set Implicit Arguments.
Set Warnings "-register-all".

(** ** Python values *)

(** What [json.loads] returns: [None], [bool], [int], [float], [str],
    [list], and [dict] with string keys.  A dict is kept as the list of its
    items in insertion order; a key is looked up from the front. *)
Inductive pyval : Type :=
| PNone
| PBool (b : bool)
| PInt (z : Z)
| PFloat (f : spec_float)
| PStr (s : string)
| PList (l : list pyval)
| PDict (d : list (string * pyval)).

(** The exception classes the program can meet; all derive from
    [Exception]. *)
Inductive exn : Type :=
| TypeError
| AttributeError
| ValueError
| OverflowError
| OSError.

Inductive outcome (A : Type) : Type :=
| Ok (a : A)
| Raise (e : exn).
Arguments Ok {A} a.
Arguments Raise {A} e.

(** Truth value testing, as [if v:] does it. *)
Definition truthy (v : pyval) : bool :=
  match v with
  | PNone => false
  | PBool b => b
  | PInt z => negb (z =? 0)
  | PFloat (S754_zero _) => false
  | PFloat _ => true
  | PStr s => match s with EmptyString => false | String _ _ => true end
  | PList l => match l with [] => false | _ :: _ => true end
  | PDict d => match d with [] => false | _ :: _ => true end
  end.

(** [v == s] for a string literal [s]: only a [str] can be equal to it. *)
Definition py_eq_str (v : pyval) (s : string) : bool :=
  match v with
  | PStr t => (t =? s)%string
  | _ => false
  end.

(** [v is None]. *)
Definition is_None (v : pyval) : bool :=
  match v with
  | PNone => true
  | _ => false
  end.

Fixpoint dict_lookup (d : list (string * pyval)) (k : string) : option pyval :=
  match d with
  | [] => None
  | (k', v) :: d' => if (k' =? k)%string then Some v else dict_lookup d' k
  end.

(** [node.get(k, default)]; only a dict has the method. *)
Definition py_get (node : pyval) (k : string) (default : pyval) : outcome pyval :=
  match node with
  | PDict d =>
      match dict_lookup d k with
      | Some v => Ok v
      | None => Ok default
      end
  | _ => Raise AttributeError
  end.

Fixpoint chars (s : string) : list pyval :=
  match s with
  | EmptyString => []
  | String c s' => PStr (String c EmptyString) :: chars s'
  end.

(** The items a [for] loop over [v] visits. *)
Definition py_iter (v : pyval) : outcome (list pyval) :=
  match v with
  | PList l => Ok l
  | PDict d => Ok (map (fun kv => PStr (fst kv)) d)
  | PStr s => Ok (chars s)
  | _ => Raise TypeError
  end.

(** [len(v)]. *)
Definition py_len (v : pyval) : outcome nat :=
  match v with
  | PList l => Ok (List.length l)
  | PDict d => Ok (List.length d)
  | PStr s => Ok (String.length s)
  | _ => Raise TypeError
  end.

(** ** Element trees *)

(** An [xml.etree.ElementTree.Element]: tag, attributes, text, children.
    [text] is whatever object was assigned to it ([None] when nothing was). *)
Inductive element : Type :=
| Element (tag : string) (attrib : list (string * string)) (text : pyval)
          (children : list element).

Definition tag (e : element) : string :=
  match e with Element t _ _ _ => t end.
Definition attrib (e : element) : list (string * string) :=
  match e with Element _ a _ _ => a end.
Definition text (e : element) : pyval :=
  match e with Element _ _ x _ => x end.
Definition children (e : element) : list element :=
  match e with Element _ _ _ c => c end.

(** [e.findall(t)]: the children with tag [t], in document order. *)
Definition findall (t : string) (e : element) : list element :=
  filter (fun c => (tag c =? t)%string) (children e).

(** [e.find(t)]. *)
Definition find (t : string) (e : element) : option element :=
  hd_error (findall t e).

(** ** The interpreter and library functions left abstract *)

(** [repr] of floats and containers, the conversion of a float timestamp
    and the XML serialiser are the interpreter's and the library's; the
    program is verified for any behaviour of these.
    - [py_repr v]: the text an f-string field gives for a float, list or
      dict [v];
    - [float_timestamp f]: the instant, in microseconds since the epoch, of
      [datetime.fromtimestamp(f, tz=timezone.utc)], or what it raises;
    - [et_serialize e]: the text the serialiser emits for the tree [e], and
      the exception that interrupted it, if any;
    - [exn_str e]: the message of the exception [e]. *)
Class PyLib : Type := {
  py_repr : pyval -> string;
  float_timestamp : spec_float -> outcome Z;
  et_serialize : element -> string * option exn;
  exn_str : exn -> string
}.

(** ** The world *)

(** A printed line: the instant in its stamp and the text after it. *)
Record log_line : Type := LogLine { log_time : Z; log_text : string }.

(** - [clock n]: the [n]-th reading of the wall clock, in microseconds since
      the epoch; [reads] counts the readings taken so far;
    - [network n]: what the [n]-th request to the API gives once read,
      decoded and parsed, or the exception raised on the way;
    - [kml_file]: the content of the output file, [None] while it does not
      exist;
    - [stdout]: the lines printed;
    - [timers]: for each timer started and not fired yet, the seconds left
      until it fires. *)
Record world : Type := World {
  clock : nat -> Z;
  reads : nat;
  network : nat -> outcome pyval;
  fetches : nat;
  kml_file : option string;
  stdout : list log_line;
  timers : list Z
}.

(** ** Computations: state and exceptions *)

(** An exception leaves the effects done before it in place. *)
Definition M (A : Type) : Type := world -> outcome A * world.

Definition ret {A} (a : A) : M A := fun w => (Ok a, w).

Definition bind {A B} (m : M A) (k : A -> M B) : M B :=
  fun w =>
    match m w with
    | (Ok a, w') => k a w'
    | (Raise e, w') => (Raise e, w')
    end.

Definition raise {A} (e : exn) : M A := fun w => (Raise e, w).

Definition lift {A} (o : outcome A) : M A := fun w => (o, w).

(** [try: m except Exception as e: h e]. *)
Definition try_except {A} (m : M A) (h : exn -> M A) : M A :=
  fun w =>
    match m w with
    | (Ok a, w') => (Ok a, w')
    | (Raise e, w') => h e w'
    end.

Declare Scope py_scope.
Delimit Scope py_scope with py.
Notation "x <- m ;; k" := (bind m (fun x => k))
  (at level 100, m at next level, right associativity) : py_scope.
Notation "m ;; k" := (bind m (fun _ => k))
  (at level 100, right associativity) : py_scope.
Local Open Scope py_scope.

(** [datetime.now(tz=timezone.utc)] and [datetime.utcnow()]: one more
    reading of the clock. *)
Definition datetime_now : M Z :=
  fun w =>
    (Ok (clock w (reads w)),
     World (clock w) (S (reads w)) (network w) (fetches w) (kml_file w)
           (stdout w) (timers w)).

(** [print(...)] of a line stamped with the instant [t]. *)
Definition print (t : Z) (msg : string) : M unit :=
  fun w =>
    (Ok tt,
     World (clock w) (reads w) (network w) (fetches w) (kml_file w)
           (stdout w ++ [LogLine t msg])%list (timers w)).

(** [threading.Timer(interval, update_kml).start()]. *)
Definition timer_start (interval : Z) : M unit :=
  fun w =>
    (Ok tt,
     World (clock w) (reads w) (network w) (fetches w) (kml_file w)
           (stdout w) (timers w ++ [interval])%list).

(** [fetch_nodes()]: the request, the read, the decoding and the parsing are
    the network's and the library's; the world tells their joint result.
    Every request here comes to an end, with an answer or an exception: a
    request that never returns, which [urlopen] without a timeout allows,
    is not in the model. *)
Definition fetch_nodes : M pyval :=
  fun w =>
    (network w (fetches w),
     World (clock w) (reads w) (network w) (S (fetches w)) (kml_file w)
           (stdout w) (timers w)).

(** ** Configuration *)

Definition API_URL : string := "https://stats.nggmrs.net/api/nodes".
Definition OUTPUT_KML : string := "nggmrs_repeaters.kml".
Definition UPDATE_INTERVAL : Z := 5 * 60.

(** ** Dates and times *)

(** A [datetime] in UTC is the number of microseconds since the epoch, a
    [timedelta] a number of microseconds. *)
Definition MICRO : Z := 1000000.

(** The first and last second [datetime] can hold: 0001-01-01 00:00:00 and
    9999-12-31 23:59:59. *)
Definition MIN_TIMESTAMP : Z := -62135596800.
Definition MAX_TIMESTAMP : Z := 253402300799.

(** The seconds a 64-bit [time_t] holds. *)
Definition MIN_TIME_T : Z := - 2 ^ 63.
Definition MAX_TIME_T : Z := 2 ^ 63 - 1.

(** The seconds the C library's [gmtime] breaks down, the year less 1900
    having to fit a C [int]: from the first second of the year -2147481748
    to the last of the year 2147485547. *)
Definition MIN_GMTIME : Z := -67768040609740800.
Definition MAX_GMTIME : Z := 67768036191676799.

(** An [int] of seconds, on a platform with a 64-bit [time_t]: out of the
    [time_t] range it is an [OverflowError]; where [gmtime] gives up, an
    [OSError]; out of the years 1 to 9999, a [ValueError]. *)
Definition int_timestamp (z : Z) : outcome Z :=
  if (z <? MIN_TIME_T) || (MAX_TIME_T <? z) then Raise OverflowError
  else if (z <? MIN_GMTIME) || (MAX_GMTIME <? z) then Raise OSError
  else if (z <? MIN_TIMESTAMP) || (MAX_TIMESTAMP <? z) then Raise ValueError
  else Ok (z * MICRO).

(** [datetime.fromtimestamp(ts, tz=timezone.utc)]. *)
Definition fromtimestamp `{PyLib} (ts : pyval) : outcome Z :=
  match ts with
  | PInt z => int_timestamp z
  | PBool b => int_timestamp (if b then 1 else 0)
  | PFloat f => float_timestamp f
  | _ => Raise TypeError
  end.

(** [timedelta(minutes=m)]. *)
Definition timedelta_minutes (m : Z) : Z := m * 60 * MICRO.

(** The decimal digits of [n], padded with zeros on the left up to [width]
    characters. *)
Fixpoint zeros (n : nat) : string :=
  match n with
  | O => EmptyString
  | S n' => String "0" (zeros n')
  end.

Definition decimal (z : Z) : string := NilZero.string_of_int (Z.to_int z).

Definition padded (width : nat) (n : Z) : string :=
  let d := decimal n in
  zeros (width - String.length d) ++ d.

(** Year, month and day of the [days]-th day after 1970-01-01 in the
    proleptic Gregorian calendar. *)
Definition civil_from_days (days : Z) : Z * Z * Z :=
  let z := days + 719468 in
  let era := z / 146097 in
  let doe := z - era * 146097 in
  let yoe := (doe - doe / 1460 + doe / 36524 - doe / 146096) / 365 in
  let doy := doe - (365 * yoe + yoe / 4 - yoe / 100) in
  let mp := (5 * doy + 2) / 153 in
  let d := doy - (153 * mp + 2) / 5 + 1 in
  let m := if mp <? 10 then mp + 3 else mp - 9 in
  let y := yoe + era * 400 + (if m <=? 2 then 1 else 0) in
  (y, m, d).

(** [dt.strftime("%Y-%m-%d %H:%M:%S UTC")]; the year is written as the C
    library does, without padding. *)
Definition strftime (dt : Z) : string :=
  let secs := dt / MICRO in
  let '(y, m, d) := civil_from_days (secs / 86400) in
  let sod := secs mod 86400 in
  decimal y ++ "-" ++ padded 2 m ++ "-" ++ padded 2 d ++ " " ++
  padded 2 (sod / 3600) ++ ":" ++ padded 2 (sod mod 3600 / 60) ++ ":" ++
  padded 2 (sod mod 60) ++ " UTC".

Section Program.

Context `{PyLib}.

(** ** [fmt_time] *)

Definition fmt_time (ts : pyval) : outcome string :=
  match fromtimestamp ts with
  | Ok dt => Ok (strftime dt)
  | Raise e => Raise e
  end.

(** ** [icon_href] *)

Definition ICON_YELLOW : string :=
  "https://maps.google.com/mapfiles/kml/paddle/ylw-blank.png".
Definition ICON_RED : string :=
  "https://maps.google.com/mapfiles/kml/paddle/X.png".
Definition ICON_GREEN : string :=
  "https://maps.google.com/mapfiles/kml/paddle/grn-blank.png".

(** The clock is read and the age of the report is computed before the
    keyed flag is looked at. *)
Definition icon_href (keyed last_report : pyval) : M string :=
  now <- datetime_now ;;
  reported <- lift (fromtimestamp last_report) ;;
  let age := now - reported in
  if py_eq_str keyed "1" then ret ICON_YELLOW
  else if timedelta_minutes 5 <? age then ret ICON_RED
  else ret ICON_GREEN.

(** ** [build_kml] *)

(** A [{v}] field of an f-string. *)
Definition py_format (v : pyval) : string :=
  match v with
  | PNone => "None"
  | PBool b => if b then "True" else "False"
  | PInt z => decimal z
  | PStr s => s
  | PFloat _ | PList _ | PDict _ => py_repr v
  end.

Definition NL : string := String "010" EmptyString.

Definition BALLOON_TEXT : string :=
  NL ++ "        <![CDATA[" ++
  NL ++ "        <b>$[name]</b><br/>" ++
  NL ++ "        Frequency: $[description]<br/>" ++
  NL ++ "        Last report: $[lastReport]<br/>" ++
  NL ++ "        Keyed: $[keyed]<br/>" ++
  NL ++ "        ]]>" ++
  NL ++ "    ".

(** The name and the shared balloon style every document starts with. *)
Definition document_head : list element :=
  [ Element "name" [] (PStr "NGGMRS Repeater Status") [];
    Element "Style" [("id", "repeaterStyle")] PNone
      [ Element "BalloonStyle" [] PNone
          [ Element "bgColor" [] (PStr "ffffffff") [];
            Element "textColor" [] (PStr "ff000000") [];
            Element "text" [] (PStr BALLOON_TEXT) [] ] ] ].

(** The subtree the loop body hangs under the document for one node. *)
Definition placemark_tree (name description : pyval)
    (href last_report keyed coordinates : string) : element :=
  Element "Placemark" [] PNone
    [ Element "name" [] name [];
      Element "description" [] description [];
      Element "styleUrl" [] (PStr "#repeaterStyle") [];
      Element "Style" [] PNone
        [ Element "IconStyle" [] PNone
            [ Element "scale" [] (PStr "1.2") [];
              Element "Icon" [] PNone
                [ Element "href" [] (PStr href) [] ] ] ];
      Element "ExtendedData" [] PNone
        [ Element "Data" [("name", "lastReport")] (PStr last_report) [];
          Element "Data" [("name", "keyed")] (PStr keyed) [] ];
      Element "Point" [] PNone
        [ Element "coordinates" [] (PStr coordinates) [] ] ].

(** The body of the loop for one [node]: [None] where the loop goes on to
    the next node without a placemark, the placemark otherwise. *)
Definition placemark (node : pyval) : M (option element) :=
  hidden <- lift (py_get node "hidden" PNone) ;;
  if truthy hidden then ret None else
  lat <- lift (py_get node "latitude" PNone) ;;
  lon <- lift (py_get node "longitude" PNone) ;;
  if is_None lat || is_None lon then ret None else
  name <- lift (py_get node "name" (PStr "Unnamed")) ;;
  description <- lift (py_get node "description" (PStr EmptyString)) ;;
  keyed <- lift (py_get node "keyed" (PStr "0")) ;;
  time <- lift (py_get node "time" (PInt 0)) ;;
  href <- icon_href keyed time ;;
  time' <- lift (py_get node "time" (PInt 0)) ;;
  last_report <- lift (fmt_time time') ;;
  keyed' <- lift (py_get node "keyed" PNone) ;;
  ret (Some
    (placemark_tree name description href last_report
       (if py_eq_str keyed' "1" then "Yes" else "No")
       (py_format lon ++ "," ++ py_format lat ++ ",0"))).

(** The loop over the nodes: the placemarks appended to the document. *)
Fixpoint placemarks_of (nodes : list pyval) : M (list element) :=
  match nodes with
  | [] => ret []
  | node :: rest =>
      p <- placemark node ;;
      ps <- placemarks_of rest ;;
      ret (match p with Some pm => pm :: ps | None => ps end)
  end.

Definition KML_NS : string := "{http://www.opengis.net/kml/2.2}".

Definition build_kml (nodes : pyval) : M element :=
  items <- lift (py_iter nodes) ;;
  pms <- placemarks_of items ;;
  ret (Element (KML_NS ++ "kml") [] PNone
         [ Element "Document" [] PNone (document_head ++ pms)%list ]).

(** ** [update_kml] *)

(** [tree.write(OUTPUT_KML, encoding="utf-8", xml_declaration=True)]: the
    file is opened for writing, which empties it, and holds what the
    serialiser has emitted when it is closed, also after an exception. *)
Definition tree_write (tree : element) : M unit :=
  fun w =>
    let '(emitted, failure) := et_serialize tree in
    (match failure with None => Ok tt | Some e => Raise e end,
     World (clock w) (reads w) (network w) (fetches w) (Some emitted)
           (stdout w) (timers w)).

(** The [try] statement of [update_kml]. *)
Definition refresh : M unit :=
  try_except
    (t <- datetime_now ;;
     print t "Fetching node data …" ;;
     nodes <- fetch_nodes ;;
     t <- datetime_now ;;
     n <- lift (py_len nodes) ;;
     print t ("Got " ++ decimal (Z.of_nat n) ++ " entries, building KML …") ;;
     tree <- build_kml nodes ;;
     tree_write tree ;;
     t <- datetime_now ;;
     print t ("KML written to " ++ OUTPUT_KML))
    (fun e =>
     t <- datetime_now ;;
     print t ("ERROR: " ++ exn_str e)).

Definition update_kml : M unit :=
  refresh ;;
  timer_start UPDATE_INTERVAL.

(** ** The refresh scheduler *)

(** Where an activation of [update_kml] stands: in its [try] statement, or
    past it, before the line that starts the timer. *)
Inductive phase : Type :=
| InTry
| AtTimer.

(** The process: the world, the activations of [update_kml] under way, and
    the seconds gone by since an activation last returned. *)
Record system : Type := System {
  sys_world : world;
  running : list phase;
  since_done : Z
}.

Definition set_timers (l : list Z) (w : world) : world :=
  World (clock w) (reads w) (network w) (fetches w) (kml_file w) (stdout w) l.

(** Time passes; a timer that has run out fires and calls [update_kml] on a
    thread of its own; an activation runs its [try] statement; an activation
    starts the next timer and returns.  Nothing in the relation keeps two
    activations from running side by side. *)
Inductive step : system -> system -> Prop :=
| step_pass : forall s d,
    0 <= d ->
    step s (System (set_timers (map (fun r => r - d) (timers (sys_world s)))
                               (sys_world s))
                   (running s) (since_done s + d))
| step_fire : forall s l1 r l2,
    timers (sys_world s) = (l1 ++ r :: l2)%list ->
    r <= 0 ->
    step s (System (set_timers (l1 ++ l2)%list (sys_world s))
                   (running s ++ [InTry])%list (since_done s))
| step_try : forall s a1 a2,
    running s = (a1 ++ InTry :: a2)%list ->
    step s (System (snd (refresh (sys_world s)))
                   (a1 ++ AtTimer :: a2)%list (since_done s))
| step_timer : forall s a1 a2,
    running s = (a1 ++ AtTimer :: a2)%list ->
    step s (System (snd (timer_start UPDATE_INTERVAL (sys_world s)))
                   (a1 ++ a2)%list 0).

Inductive steps : system -> system -> Prop :=
| steps_refl : forall s, steps s s
| steps_next : forall s1 s2 s3, steps s1 s2 -> step s2 s3 -> steps s1 s3.

(** The entry point calls [update_kml()] once, with no timer started yet. *)
Definition initial (s : system) : Prop :=
  running s = [InTry] /\ timers (sys_world s) = [].

(** Either one activation is under way and no timer is pending, or none is
    and one timer is, with as many seconds left as are missing to 300 since
    the last activation returned. *)
Definition chained (s : system) : Prop :=
  (exists a, running s = [a] /\ timers (sys_world s) = []) \/
  (running s = [] /\
   exists r, timers (sys_world s) = [r] /\ r + since_done s = UPDATE_INTERVAL).

End Program.

(** ** Reading a document back *)

(** [e.find("a/b/c")]. *)
Fixpoint find_path (path : list string) (e : element) : option element :=
  match path with
  | [] => Some e
  | t :: rest =>
      match find t e with
      | Some c => find_path rest c
      | None => None
      end
  end.

Definition path_text (path : list string) (e : element) : option pyval :=
  option_map text (find_path path e).

Fixpoint get_attr (k : string) (a : list (string * string)) : option string :=
  match a with
  | [] => None
  | (k', v) :: a' => if (k' =? k)%string then Some v else get_attr k a'
  end.

Definition has_name (n : string) (e : element) : bool :=
  match get_attr "name" (attrib e) with
  | Some v => (v =? n)%string
  | None => false
  end.

(** The text of [ExtendedData/Data[@name=n]]. *)
Definition data_text (n : string) (pm : element) : option pyval :=
  match find "ExtendedData" pm with
  | Some ext => option_map text (hd_error (filter (has_name n) (findall "Data" ext)))
  | None => None
  end.

(** The placemarks of a document, in document order. *)
Definition placemarks (doc : element) : list element :=
  match find "Document" doc with
  | Some d => findall "Placemark" d
  | None => []
  end.

(** ** The specification's vocabulary *)

(** The display status of the specification and the marker it selects. *)
Inductive status : Type :=
| Active
| Stale
| Normal.

Definition marker (st : status) : string :=
  match st with
  | Active => ICON_YELLOW
  | Stale => ICON_RED
  | Normal => ICON_GREEN
  end.

(** The decision order as the specification words it, for a report made at
    the instant [reported] and judged at the instant [now]: keyed first,
    then an age above five minutes, then normal. *)
Definition classify (keyed : pyval) (reported now : Z) : status :=
  match keyed with
  | PStr "1" => Active
  | _ => if 5 * 60 * MICRO <? now - reported then Stale else Normal
  end.

(** A record with both coordinates: latitude and longitude are there and
    are not [None]. *)
Definition located (node : pyval) : bool :=
  match node with
  | PDict d =>
      match dict_lookup d "latitude" with
      | Some PNone | None => false
      | Some _ => true
      end
      && match dict_lookup d "longitude" with
         | Some PNone | None => false
         | Some _ => true
         end
  | _ => false
  end.

(** A record the specification gives a placemark: its hidden field, if it
    has one, does not count as true, and it has both coordinates. *)
Definition eligible (node : pyval) : bool :=
  match node with
  | PDict d =>
      match dict_lookup d "hidden" with
      | Some h => negb (truthy h)
      | None => true
      end
      && located node
  | _ => false
  end.

(** The records of the specification's data model have a boolean for their
    hidden field, when they have the field; [hidden_true] tells the ones
    where it is [True]. *)
Definition hidden_boolean (node : pyval) : Prop :=
  match node with
  | PDict d =>
      match dict_lookup d "hidden" with
      | Some (PBool _) | None => True
      | Some _ => False
      end
  | _ => False
  end.

Definition hidden_true (node : pyval) : bool :=
  match node with
  | PDict d =>
      match dict_lookup d "hidden" with
      | Some (PBool true) => true
      | _ => false
      end
  | _ => false
  end.

(** The values that count as true, and the ones that count as false, when
    tested by [if]. *)
Inductive Truthy : pyval -> Prop :=
| Truthy_True : Truthy (PBool true)
| Truthy_int : forall z, z <> 0 -> Truthy (PInt z)
| Truthy_float_finite : forall s m e, Truthy (PFloat (S754_finite s m e))
| Truthy_float_infinity : forall s, Truthy (PFloat (S754_infinity s))
| Truthy_float_nan : Truthy (PFloat S754_nan)
| Truthy_str : forall c s, Truthy (PStr (String c s))
| Truthy_list : forall x l, Truthy (PList (x :: l))
| Truthy_dict : forall x d, Truthy (PDict (x :: d)).

Inductive Falsy : pyval -> Prop :=
| Falsy_None : Falsy PNone
| Falsy_False : Falsy (PBool false)
| Falsy_int : Falsy (PInt 0)
| Falsy_float : forall s, Falsy (PFloat (S754_zero s))
| Falsy_str : Falsy (PStr EmptyString)
| Falsy_list : Falsy (PList [])
| Falsy_dict : Falsy (PDict []).

(** The defaults of the fields that have one. *)
Definition DEFAULTS : list (string * pyval) :=
  [ ("keyed", PStr "0"); ("time", PInt 0);
    ("name", PStr "Unnamed"); ("description", PStr EmptyString) ].

(** ** Auxiliary notions *)

(** The world after [n] more readings of the clock. *)
Definition tick (n : nat) (w : world) : world :=
  World (clock w) (n + reads w) (network w) (fetches w) (kml_file w)
        (stdout w) (timers w).

(** The value [node.get(k, default)] gives for the dict [d]. *)
Definition field (d : list (string * pyval)) (k : string) (default : pyval) : pyval :=
  match dict_lookup d k with
  | Some v => v
  | None => default
  end.

(** ** A library to run the model with *)

(** Integers, strings and booleans need nothing from [PyLib]; this instance
    serves to run the model on such documents.  It names floats and
    containers by a question mark, takes no float for a timestamp and
    serialises a tree to nothing, without failing. *)
Definition plain_lib : PyLib :=
  {| py_repr := fun _ => "?";
     float_timestamp := fun _ => Raise ValueError;
     et_serialize := fun _ => (EmptyString, None);
     exn_str := fun _ => "error" |}.

(** ** The routes *)

(** What a view function hands back to the framework: a file to send with
    its content type, an abort with a status code and a description, or a
    page. *)
Inductive http_response : Type :=
| SendFile (content mimetype : string)
| Abort (code : Z) (description : string)
| Page (html : string).

Definition QUOTE : string := String "034" EmptyString.

(** [index()]. *)
Definition index : http_response :=
  Page ("<h2>NGGMRS Repeater KML Service</h2>" ++
        "<p>Download the latest KML file: " ++
        "<a href=" ++ QUOTE ++ "/kml" ++ QUOTE ++ ">nggmrs_repeaters.kml</a></p>").

Definition KML_MIMETYPE : string := "application/vnd.google-earth.kml+xml".

(** [send_file(OUTPUT_KML, mimetype=...)]: [None] stands for the
    [FileNotFoundError] of a file that does not exist.  The file sent is the
    file [update_kml] writes: the process runs in the directory of the
    script. *)
Definition send_file (mimetype : string) (w : world) : option http_response :=
  match kml_file w with
  | Some content => Some (SendFile content mimetype)
  | None => None
  end.

(** [serve_kml()]. *)
Definition serve_kml (w : world) : http_response :=
  match send_file KML_MIMETYPE w with
  | Some response => response
  | None => Abort 404 "KML file not yet generated."
  end.

(** ** The lines a cycle prints *)

Definition LINE_FETCHING : string := "Fetching node data …".
Definition line_got (n : nat) : string :=
  "Got " ++ decimal (Z.of_nat n) ++ " entries, building KML …".
Definition line_error `{PyLib} (e : exn) : string := "ERROR: " ++ exn_str e.
Definition LINE_WRITTEN : string := "KML written to " ++ OUTPUT_KML.

(** ** What makes a build fail *)

Definition is_dict (v : pyval) : bool :=
  match v with
  | PDict _ => true
  | _ => false
  end.

(** The exception a record raises in the loop, if it raises one: a record
    that is no dict has no [get]; an eligible record needs a time field that
    is a timestamp; a record that is skipped is not looked at any further. *)
Definition node_error `{PyLib} (node : pyval) : option exn :=
  match node with
  | PDict d =>
      if eligible node then
        match fromtimestamp (field d "time" (PInt 0)) with
        | Ok _ => None
        | Raise e => Some e
        end
      else None
  | _ => Some AttributeError
  end.

(** The exception of the first record, in input order, that raises one. *)
Fixpoint first_error `{PyLib} (nodes : list pyval) : option exn :=
  match nodes with
  | [] => None
  | node :: rest =>
      match node_error node with
      | Some e => Some e
      | None => first_error rest
      end
  end.

(** The document built from no record at all. *)
Definition EMPTY_DOCUMENT : element :=
  Element (KML_NS ++ "kml") [] PNone [ Element "Document" [] PNone document_head ].

(** ** Sample records and worlds *)

(** The records of the specification's scenarios, with whole degrees. *)
Definition NOW : Z := 1700000000.

Definition R1 : pyval :=
  PDict [ ("name", PStr "R1"); ("latitude", PInt 40); ("longitude", PInt (-105));
          ("keyed", PStr "1"); ("time", PInt NOW) ].
Definition R2 : pyval :=
  PDict [ ("name", PStr "R2"); ("latitude", PInt 40); ("longitude", PInt (-105));
          ("keyed", PStr "0"); ("time", PInt (NOW - 3600)) ].
Definition R3 : pyval :=
  PDict [ ("name", PStr "R3"); ("hidden", PBool true);
          ("latitude", PInt 1); ("longitude", PInt 1) ].
Definition R4 : pyval :=
  PDict [ ("name", PStr "R4"); ("keyed", PStr "0"); ("time", PInt NOW) ].

(** A record that has nothing but its coordinates. *)
Definition BARE : pyval :=
  PDict [ ("latitude", PInt 40); ("longitude", PInt (-105)) ].

(** A record last heard of exactly five minutes before [NOW]. *)
Definition R5 : pyval :=
  PDict [ ("name", PStr "R5"); ("latitude", PInt 40); ("longitude", PInt (-105));
          ("keyed", PStr "0"); ("time", PInt (NOW - 300)) ].

(** A keyed record whose time field counts milliseconds. *)
Definition R6 : pyval :=
  PDict [ ("name", PStr "R6"); ("latitude", PInt 40); ("longitude", PInt (-105));
          ("keyed", PStr "1"); ("time", PInt (NOW * 1000)) ].

(** A record hidden by a string. *)
Definition R7 : pyval :=
  PDict [ ("name", PStr "R7"); ("hidden", PStr "false");
          ("latitude", PInt 1); ("longitude", PInt 1) ].

(** A clock that stands still at [now], a network that always gives
    [answer], no file, nothing printed, no timer. *)
Definition still_world (now : Z) (answer : outcome pyval) : world :=
  World (fun _ => now) 0 (fun _ => answer) 0 None [] [].

(** A clock that starts at the second [start] and is a microsecond further
    at each reading. *)
Definition running_world (start : Z) (answer : outcome pyval) : world :=
  World (fun n => start * MICRO + Z.of_nat n) 0 (fun _ => answer) 0 None [] [].

(** A world in the middle of its life: the clock stands at [now], some
    readings and requests are behind, the network is down, a document is on
    file and a timer is pending. *)
Definition later_world (now : Z) : world :=
  World (fun _ => now) 7 (fun _ => Raise OSError) 2 (Some "<kml/>") [] [120].

(** The path of the icon reference in a placemark. *)
Definition HREF : list string := ["Style"; "IconStyle"; "Icon"; "href"].

(** What a document shows of its placemarks: name, icon, last report,
    keyed datum and coordinates. *)
Definition summary (pm : element) : list (option pyval) :=
  [ path_text ["name"] pm; path_text HREF pm; data_text "lastReport" pm;
    data_text "keyed" pm; path_text ["Point"; "coordinates"] pm ].

Definition built (nodes : list pyval) (w : world) : option (list (list (option pyval))) :=
  match fst (build_kml (H := plain_lib) (PList nodes) w) with
  | Ok doc => Some (map summary (placemarks doc))
  | Raise _ => None
  end.

(** The world of the scenarios: the clock stands at [NOW], the network
    answers with the four records. *)
Definition W0 : world := still_world (NOW * MICRO) (Ok (PList [R1; R2; R3; R4])).

(** The process as the entry point starts it in that world, and after its
    first cycle. *)
Definition START : system := System W0 [InTry] 0.
Definition AFTER_ONE_CYCLE : system :=
  System (snd (update_kml (H := plain_lib) W0)) [] 0.

(** A record whose name is a number. *)
Definition R8 : pyval :=
  PDict [ ("name", PInt 8); ("description", PNone);
          ("latitude", PInt 40); ("longitude", PInt (-105)) ].

(** A library whose serialiser can fail.  The texts it writes are the
    strings; a text that counts as false is left out; any other text is a
    [TypeError].  What it emits is made up: a fixed text for a tree it
    accepts, the XML declaration alone when it fails. *)
Fixpoint texts_ok (e : element) : bool :=
  match e with
  | Element _ _ x c =>
      match x with PStr _ => true | _ => negb (truthy x) end && forallb texts_ok c
  end.

Definition picky_lib : PyLib :=
  {| py_repr := fun _ => "?";
     float_timestamp := fun _ => Raise ValueError;
     et_serialize := fun e =>
       if texts_ok e then ("<kml>...</kml>", None)
       else ("<?xml version='1.0' encoding='utf-8'?>", Some TypeError);
     exn_str := fun _ => "error" |}.

(** The world of the scenarios with a document on file and an answer that
    holds the record with a number for its name. *)
Definition W8 : world :=
  World (fun _ => NOW * MICRO) 0 (fun _ => Ok (PList [R1; R8])) 0
        (Some "<kml/>") [] [].

(** A process whose file exists and whose network is down, at the start of
    a cycle. *)
Definition DOWN : system := System (later_world (NOW * MICRO)) [InTry] 0.

(** * Properties *)

(** ** The clock is the only part of the world a build touches *)

Lemma tick_0 (w : world) : tick 0 w = w.
Proof. destruct w; reflexivity. Qed.

Lemma tick_tick (n m : nat) (w : world) : tick n (tick m w) = tick (n + m) w.
Proof. unfold tick; simpl. now rewrite Nat.add_assoc. Qed.

Lemma classify_eq (keyed : pyval) (reported now : Z) :
  classify keyed reported now =
  if py_eq_str keyed "1" then Active
  else if timedelta_minutes 5 <? now - reported then Stale else Normal.
Proof.
  destruct keyed as [| | | |s| |]; try reflexivity.
  unfold py_eq_str.
  destruct (String.eqb_spec s "1") as [->|Hne]; [reflexivity|].
  destruct s as [|[[] [] [] [] [] [] [] []] [|c s']]; try reflexivity.
  now elim Hne.
Qed.

Section Facts.

Context `{PyLib}.

(** [icon_href] reads the clock once, whatever it then returns or raises,
    and decides as [classify] does at that reading. *)
Lemma icon_href_run (keyed ts : pyval) (w : world) :
  icon_href keyed ts w =
  (match fromtimestamp ts with
   | Ok reported => Ok (marker (classify keyed reported (clock w (reads w))))
   | Raise e => Raise e
   end, tick 1 w).
Proof.
  unfold icon_href, bind, datetime_now, lift; simpl.
  destruct (fromtimestamp ts) as [reported|e]; [|reflexivity].
  rewrite classify_eq.
  destruct (py_eq_str keyed "1"); [reflexivity|].
  destruct (timedelta_minutes 5 <? clock w (reads w) - reported); reflexivity.
Qed.

Lemma py_get_dict d k default : py_get (PDict d) k default = Ok (field d k default).
Proof. unfold py_get, field. now destruct (dict_lookup d k). Qed.

Lemma eligible_dict d :
  eligible (PDict d) =
  negb (truthy (field d "hidden" PNone))
  && negb (is_None (field d "latitude" PNone) || is_None (field d "longitude" PNone)).
Proof.
  unfold eligible, located, field.
  destruct (dict_lookup d "hidden") as [h|]; simpl;
    destruct (dict_lookup d "latitude") as [[]|];
    destruct (dict_lookup d "longitude") as [[]|]; simpl;
    rewrite ?andb_true_r, ?andb_false_r; reflexivity.
Qed.

(** On a record whose hidden field is a boolean or missing, counting as true
    and being [True] are the same. *)
Lemma eligible_boolean node :
  hidden_boolean node -> eligible node = negb (hidden_true node) && located node.
Proof.
  destruct node as [| | | | | |d]; try contradiction.
  unfold hidden_boolean, eligible, hidden_true.
  destruct (dict_lookup d "hidden") as [[|[]| | | | |]|]; intros Hb;
    try contradiction; reflexivity.
Qed.

(** What the loop body does with a dict: nothing when the record is not
    eligible; otherwise one reading of the clock, and a placemark unless the
    time field is no timestamp. *)
Lemma placemark_dict d w :
  placemark (PDict d) w =
  if eligible (PDict d) then
    (match fromtimestamp (field d "time" (PInt 0)) with
     | Ok reported =>
         Ok (Some (placemark_tree
                     (field d "name" (PStr "Unnamed"))
                     (field d "description" (PStr EmptyString))
                     (marker (classify (field d "keyed" (PStr "0")) reported
                                       (clock w (reads w))))
                     (strftime reported)
                     (if py_eq_str (field d "keyed" PNone) "1" then "Yes" else "No")
                     (py_format (field d "longitude" PNone) ++ "," ++
                      py_format (field d "latitude" PNone) ++ ",0")))
     | Raise e => Raise e
     end, tick 1 w)
  else (Ok None, w).
Proof.
  rewrite eligible_dict.
  unfold placemark.
  unfold bind at 1. rewrite py_get_dict. unfold lift at 1.
  destruct (truthy (field d "hidden" PNone)); [reflexivity|].
  unfold bind at 1. rewrite py_get_dict. unfold lift at 1.
  unfold bind at 1. rewrite py_get_dict. unfold lift at 1.
  destruct (is_None (field d "latitude" PNone) || is_None (field d "longitude" PNone));
    [reflexivity|].
  simpl negb. simpl andb.
  unfold bind, lift. rewrite !py_get_dict. rewrite icon_href_run.
  unfold fmt_time.
  destruct (fromtimestamp (field d "time" (PInt 0))); reflexivity.
Qed.

Lemma placemark_not_dict node w :
  (forall d, node <> PDict d) -> placemark node w = (Raise AttributeError, w).
Proof.
  intros Hnd. destruct node; try reflexivity. now elim (Hnd d).
Qed.

Lemma placemark_world node w :
  snd (placemark node w) = if eligible node then tick 1 w else w.
Proof.
  destruct node as [| | | | | |d]; try reflexivity.
  rewrite placemark_dict. now destruct (eligible (PDict d)).
Qed.

Lemma placemark_Some node w pm w' :
  placemark node w = (Ok (Some pm), w') ->
  eligible node = true /\ tag pm = "Placemark".
Proof.
  destruct node as [| | | | | |d]; try discriminate.
  rewrite placemark_dict.
  destruct (eligible (PDict d)); [|discriminate].
  destruct (fromtimestamp (field d "time" (PInt 0))); [|discriminate].
  intros [= <- _]. now split.
Qed.

Lemma placemark_None node w w' :
  placemark node w = (Ok None, w') -> eligible node = false.
Proof.
  destruct node as [| | | | | |d]; try reflexivity.
  rewrite placemark_dict.
  destruct (eligible (PDict d)); [|reflexivity].
  destruct (fromtimestamp (field d "time" (PInt 0))); discriminate.
Qed.

(** One step of the loop. *)
Lemma placemarks_of_cons node rest w :
  placemarks_of (node :: rest) w =
  match placemark node w with
  | (Ok p, w1) =>
      match placemarks_of rest w1 with
      | (Ok ps, w2) => (Ok (match p with Some pm => pm :: ps | None => ps end), w2)
      | (Raise e, w2) => (Raise e, w2)
      end
  | (Raise e, w1) => (Raise e, w1)
  end.
Proof.
  simpl. unfold bind.
  destruct (placemark node w) as [[p|e] w1]; [|reflexivity].
  destruct (placemarks_of rest w1) as [[ps|e] w2]; reflexivity.
Qed.

Lemma placemarks_of_tags nodes : forall w pms w',
  placemarks_of nodes w = (Ok pms, w') ->
  Forall (fun pm => tag pm = "Placemark") pms.
Proof.
  induction nodes as [|node rest IH]; intros w pms w'.
  - intros [= <- _]. constructor.
  - rewrite placemarks_of_cons.
    destruct (placemark node w) as [[p|e] w1] eqn:Hp; [|discriminate].
    destruct (placemarks_of rest w1) as [[ps|e] w2] eqn:Hps; [|discriminate].
    intros [= <- _]. specialize (IH _ _ _ Hps).
    destruct p as [pm|]; [|exact IH].
    constructor; [|exact IH]. now apply placemark_Some in Hp.
Qed.

Lemma findall_all t l :
  Forall (fun e => tag e = t) l ->
  filter (fun c => (tag c =? t)%string) l = l.
Proof.
  induction 1 as [|e l He _ IH]; [reflexivity|].
  simpl. rewrite He, String.eqb_refl. now f_equal.
Qed.

(** The document a build returns holds the placemarks of the loop, and
    nothing else under that tag. *)
Lemma build_kml_list nodes w :
  build_kml (PList nodes) w =
  match placemarks_of nodes w with
  | (Ok pms, w') =>
      (Ok (Element (KML_NS ++ "kml") [] PNone
             [ Element "Document" [] PNone (document_head ++ pms)%list ]), w')
  | (Raise e, w') => (Raise e, w')
  end.
Proof.
  unfold build_kml, bind, lift; simpl.
  destruct (placemarks_of nodes w) as [[pms|e] w']; reflexivity.
Qed.

Lemma build_kml_placemarks nodes w doc w' :
  build_kml (PList nodes) w = (Ok doc, w') ->
  placemarks_of nodes w = (Ok (placemarks doc), w').
Proof.
  rewrite build_kml_list.
  destruct (placemarks_of nodes w) as [[pms|e] w1] eqn:Hpms; [|discriminate].
  intros [= <- <-].
  unfold placemarks, find, findall. simpl.
  apply placemarks_of_tags in Hpms. now rewrite (findall_all Hpms).
Qed.

End Facts.

(** ** The icon decision *)

Section IconDecision.

Context `{PyLib}.

(** Whatever the keyed flag, a time field that is no timestamp makes
    [icon_href] raise: the report's instant is computed first. *)
Lemma icon_href_raises keyed ts w e :
  fromtimestamp ts = Raise e -> fst (icon_href keyed ts w) = Raise e.
Proof. intros Hts. rewrite icon_href_run, Hts. reflexivity. Qed.

(** C1, as amended.  For a time field that [datetime.fromtimestamp]
    accepts, [icon_href] follows the priority order of the specification,
    judged at the instant it reads from the clock: keyed ["1"] gives the
    yellow marker whatever the age of the report; otherwise an age above
    five minutes gives the red marker; otherwise the green one. *)
Theorem icon_href_priority keyed ts w reported :
  fromtimestamp ts = Ok reported ->
  fst (icon_href keyed ts w) =
  Ok (marker (classify keyed reported (clock w (reads w)))).
Proof. intros Hts. rewrite icon_href_run, Hts. reflexivity. Qed.

End IconDecision.

(** A node keyed ["1"] whose last report is decades old is still shown
    with the yellow marker. *)
Lemma icon_href_priority_witness :
  fromtimestamp (H := plain_lib) (PInt 0) = Ok 0 /\
  fst (icon_href (H := plain_lib) (PStr "1") (PInt 0)
         (still_world (NOW * MICRO) (Ok (PList [])))) = Ok ICON_YELLOW.
Proof.
  split; [reflexivity|].
  exact (icon_href_priority (H := plain_lib) (PStr "1") (PInt 0)
           (still_world (NOW * MICRO) (Ok (PList []))) eq_refl).
Defined.

(** C1, as stated, fails: a node keyed ["1"] whose time field is a number
    of milliseconds gets no icon at all, [icon_href] raises. *)
Lemma icon_href_keyed_raises :
  py_eq_str (PStr "1") "1" = true /\
  fst (icon_href (H := plain_lib) (PStr "1") (PInt (NOW * 1000))
         (still_world (NOW * MICRO) (Ok (PList [])))) = Raise ValueError /\
  fst (icon_href (H := plain_lib) (PStr "1") (PInt (NOW * 1000))
         (still_world (NOW * MICRO) (Ok (PList [])))) <> Ok ICON_YELLOW.
Proof.
  split; [reflexivity|]. split; [reflexivity|].
  vm_compute. discriminate.
Qed.

(** ** The placemarks of a document *)

Section Placemarks.

Context `{PyLib}.

Lemma placemarks_of_eligible nodes : forall w pms w',
  placemarks_of nodes w = (Ok pms, w') ->
  Forall2 (fun node pm => exists w1, placemark node w1 = (Ok (Some pm), tick 1 w1))
          (filter eligible nodes) pms.
Proof.
  induction nodes as [|node rest IH]; intros w pms w'.
  - intros [= <- _]. constructor.
  - rewrite placemarks_of_cons.
    destruct (placemark node w) as [[p|e] w1] eqn:Hp; [|discriminate].
    destruct (placemarks_of rest w1) as [[ps|e] w2] eqn:Hps; [|discriminate].
    intros [= <- _]. specialize (IH _ _ _ Hps). simpl.
    destruct p as [pm|].
    + pose proof (placemark_world node w) as Hw. rewrite Hp in Hw. simpl in Hw.
      pose proof Hp as He. apply placemark_Some in He. destruct He as [He _].
      rewrite He in *.
      constructor; [|exact IH]. exists w. now rewrite Hp, Hw.
    + apply placemark_None in Hp. now rewrite Hp.
Qed.

(** The loop runs to its end, and the build returns a document, when every
    record is a dict and the time field of every eligible one is a
    timestamp. *)
Lemma placemarks_of_returns nodes : forall w,
  Forall (fun node => exists d, node = PDict d /\
            (eligible node = true ->
             exists reported, fromtimestamp (field d "time" (PInt 0)) = Ok reported))
         nodes ->
  exists pms w', placemarks_of nodes w = (Ok pms, w').
Proof.
  induction nodes as [|node rest IH]; intros w Hall.
  - exists [], w. reflexivity.
  - inversion Hall as [|n r [d [-> Htime]] Hrest]; subst.
    rewrite placemarks_of_cons, placemark_dict.
    destruct (eligible (PDict d)).
    + destruct (Htime eq_refl) as [reported ->].
      destruct (IH (tick 1 w) Hrest) as [pms [w' ->]]. eexists. eexists. reflexivity.
    + destruct (IH w Hrest) as [pms [w' ->]]. eexists. eexists. reflexivity.
Qed.

Lemma build_kml_returns nodes w :
  Forall (fun node => exists d, node = PDict d /\
            (eligible node = true ->
             exists reported, fromtimestamp (field d "time" (PInt 0)) = Ok reported))
         nodes ->
  exists doc w', build_kml (PList nodes) w = (Ok doc, w').
Proof.
  intros Hall. rewrite build_kml_list.
  destruct (placemarks_of_returns w Hall) as [pms [w' ->]].
  eexists. eexists. reflexivity.
Qed.

(** A record that is not eligible never gets a placemark. *)
Lemma placemark_not_eligible node w pm w' :
  eligible node = false -> placemark node w <> (Ok (Some pm), w').
Proof.
  intros He Hp. apply placemark_Some in Hp. destruct Hp as [He' _]. congruence.
Qed.

Lemma filter_boolean nodes :
  Forall hidden_boolean nodes ->
  filter eligible nodes = filter (fun n => negb (hidden_true n) && located n) nodes.
Proof.
  induction 1 as [|node rest Hb _ IH]; [reflexivity|].
  simpl. rewrite (eligible_boolean _ Hb), IH. reflexivity.
Qed.

(** C2.  When [build_kml] returns a document for a list of records, the
    number of its placemarks is the number of records that are not hidden
    and have both a latitude and a longitude; a record that fails either
    condition emits no placemark.  Hidden is what counts as true in the
    hidden field; where that field is a boolean or missing in every record,
    as in the data model, it is the records whose hidden field is not
    [True] that are counted. *)
Theorem build_kml_count nodes w doc w' :
  build_kml (PList nodes) w = (Ok doc, w') ->
  List.length (placemarks doc) = List.length (filter eligible nodes) /\
  (Forall hidden_boolean nodes ->
     List.length (placemarks doc) =
     List.length (filter (fun n => negb (hidden_true n) && located n) nodes)) /\
  (forall node, eligible node = false ->
     forall w1 pm w2, placemark node w1 <> (Ok (Some pm), w2)).
Proof.
  intros Hb. apply build_kml_placemarks in Hb.
  apply placemarks_of_eligible in Hb. apply Forall2_length in Hb.
  split; [now symmetry|]. split.
  - intros Hbool. rewrite <- (filter_boolean Hbool). now symmetry.
  - intros node He w1 pm w2. now apply placemark_not_eligible.
Qed.

(** C6.  The placemarks of a built document are, one for one and in the
    same order, the placemarks the loop body makes for the eligible records
    of the input: the i-th placemark comes from the i-th eligible record. *)
Theorem build_kml_order nodes w doc w' :
  build_kml (PList nodes) w = (Ok doc, w') ->
  Forall2 (fun node pm => exists w1, placemark node w1 = (Ok (Some pm), tick 1 w1))
          (filter eligible nodes) (placemarks doc).
Proof.
  intros Hb. apply build_kml_placemarks in Hb.
  eapply placemarks_of_eligible. exact Hb.
Qed.

(** C8.  The text of [Point/coordinates] of an emitted placemark is the
    longitude, a comma, the latitude, a comma and a [0], each coordinate
    written as an f-string writes it. *)
Theorem placemark_coordinates node w pm w' :
  placemark node w = (Ok (Some pm), w') ->
  exists lon lat,
    py_get node "longitude" PNone = Ok lon /\
    py_get node "latitude" PNone = Ok lat /\
    path_text ["Point"; "coordinates"] pm =
      Some (PStr (py_format lon ++ "," ++ py_format lat ++ ",0")).
Proof.
  destruct node as [| | | | | |d]; try discriminate.
  rewrite placemark_dict.
  destruct (eligible (PDict d)); [|discriminate].
  destruct (fromtimestamp (field d "time" (PInt 0))); [|discriminate].
  intros [= <- _].
  exists (field d "longitude" PNone), (field d "latitude" PNone).
  rewrite !py_get_dict. repeat split.
Qed.

(** C10.  In an emitted placemark the node counts as keyed only when its
    keyed field is the string ["1"]: then the icon is the yellow marker and
    the keyed datum reads [Yes]; for any other value, or none, the icon is
    the one the staleness test selects at the clock reading of the
    placemark, red above five minutes and green otherwise, and the keyed
    datum reads [No]. *)
Theorem keyed_only_string_1 d w pm w' :
  placemark (PDict d) w = (Ok (Some pm), w') ->
  (dict_lookup d "keyed" = Some (PStr "1") ->
     path_text ["Style"; "IconStyle"; "Icon"; "href"] pm = Some (PStr ICON_YELLOW) /\
     data_text "keyed" pm = Some (PStr "Yes")) /\
  (dict_lookup d "keyed" <> Some (PStr "1") ->
     (exists reported,
        fromtimestamp (field d "time" (PInt 0)) = Ok reported /\
        path_text ["Style"; "IconStyle"; "Icon"; "href"] pm =
          Some (PStr (if timedelta_minutes 5 <? clock w (reads w) - reported
                      then ICON_RED else ICON_GREEN))) /\
     data_text "keyed" pm = Some (PStr "No")).
Proof.
  rewrite placemark_dict.
  destruct (eligible (PDict d)); [|discriminate].
  destruct (fromtimestamp (field d "time" (PInt 0))) as [reported|e]; [|discriminate].
  intros [= <- _]. rewrite classify_eq. unfold field.
  split.
  - intros ->. split; reflexivity.
  - intros Hne.
    assert (Hk : forall default, default <> PStr "1" ->
              py_eq_str match dict_lookup d "keyed" with
                        | Some v => v | None => default end "1" = false).
    { intros default Hd. destruct (dict_lookup d "keyed") as [v|].
      - destruct v as [| | | |s| |]; try reflexivity.
        simpl. destruct (String.eqb_spec s "1") as [->|]; [now elim Hne|reflexivity].
      - destruct default as [| | | |s| |]; try reflexivity.
        simpl. destruct (String.eqb_spec s "1") as [->|]; [now elim Hd|reflexivity]. }
    rewrite !Hk by discriminate. split; [|reflexivity].
    exists reported. split; [reflexivity|].
    now destruct (timedelta_minutes 5 <? clock w (reads w) - reported).
Qed.

(** C7.  The defaults of the missing fields.  An eligible record whose
    time field is a timestamp, or is missing, gets a placemark, and in it:
    a missing [name] reads ["Unnamed"]; a missing [description] is the empty
    string; with a missing [keyed] the icon is the one of a node keyed
    ["0"] and the keyed datum reads [No]; with a missing [time] the report
    counts as made at the instant 0, the last report reads
    [1970-01-01 00:00:00 UTC] and the icon is decided on that instant. *)
Theorem missing_fields_defaulted d w reported :
  eligible (PDict d) = true ->
  match dict_lookup d "time" with
  | Some t => fromtimestamp t = Ok reported
  | None => reported = 0
  end ->
  exists pm,
    placemark (PDict d) w = (Ok (Some pm), tick 1 w) /\
    (dict_lookup d "name" = None ->
       path_text ["name"] pm = Some (PStr "Unnamed")) /\
    (dict_lookup d "description" = None ->
       path_text ["description"] pm = Some (PStr EmptyString)) /\
    (dict_lookup d "keyed" = None ->
       path_text HREF pm =
         Some (PStr (marker (classify (PStr "0") reported (clock w (reads w))))) /\
       data_text "keyed" pm = Some (PStr "No")) /\
    (dict_lookup d "time" = None ->
       data_text "lastReport" pm = Some (PStr "1970-01-01 00:00:00 UTC") /\
       path_text HREF pm =
         Some (PStr (marker (classify (field d "keyed" (PStr "0")) 0
                                      (clock w (reads w)))))).
Proof.
  intros He Ht. rewrite placemark_dict, He.
  assert (Hts : fromtimestamp (field d "time" (PInt 0)) = Ok reported).
  { unfold field. destruct (dict_lookup d "time"); [exact Ht|]. now subst reported. }
  rewrite Hts. eexists. split; [reflexivity|].
  unfold field. split; [|split; [|split]].
  - intros ->. reflexivity.
  - intros ->. reflexivity.
  - intros ->. split; reflexivity.
  - intros Hmiss. rewrite Hmiss in Ht. subst reported. split; reflexivity.
Qed.

(** Every value counts as true or as false. *)
Lemma Truthy_or_Falsy v : Truthy v \/ Falsy v.
Proof.
  destruct v as [|b|z|f|s|l|d].
  - right. constructor.
  - destruct b; [left|right]; constructor.
  - destruct (Z.eq_dec z 0) as [->|Hz]; [right|left]; now constructor.
  - destruct f; [right|left|left|left]; constructor.
  - destruct s; [right|left]; constructor.
  - destruct l; [right|left]; constructor.
  - destruct d; [right|left]; constructor.
Qed.

Lemma Truthy_truthy v : Truthy v -> truthy v = true.
Proof.
  destruct 1 as [|z Hz| | | | | |]; try reflexivity.
  simpl. now destruct (Z.eqb_spec z 0).
Qed.

Lemma Falsy_truthy v : Falsy v -> truthy v = false.
Proof. destruct 1; reflexivity. Qed.

(** C9.  Hiding goes by truth value.  A record whose [hidden] field is
    [True], a number other than zero, a string that is not empty (the string
    ["false"] too) or a container that is not empty is skipped.  A record
    whose [hidden] field is missing, [None], [False], zero or empty is not
    skipped for that: it is left without a placemark exactly when a
    coordinate is missing. *)
Theorem hidden_by_truth_value d w :
  (forall v, dict_lookup d "hidden" = Some v -> Truthy v ->
     placemark (PDict d) w = (Ok None, w)) /\
  (dict_lookup d "hidden" = None \/
   (exists v, dict_lookup d "hidden" = Some v /\ Falsy v) ->
     (fst (placemark (PDict d) w) = Ok None <->
      is_None (field d "latitude" PNone) || is_None (field d "longitude" PNone)
        = true)).
Proof.
  split.
  - intros v Hv Ht. rewrite placemark_dict, eligible_dict.
    unfold field at 1. rewrite Hv, (Truthy_truthy Ht). reflexivity.
  - intros Hf. rewrite placemark_dict, eligible_dict.
    assert (Hh : truthy (field d "hidden" PNone) = false).
    { unfold field. destruct Hf as [->|[v [-> Hv]]];
        [reflexivity | now apply Falsy_truthy]. }
    rewrite Hh. simpl.
    destruct (is_None (field d "latitude" PNone) || is_None (field d "longitude" PNone));
      simpl.
    + split; reflexivity.
    + destruct (fromtimestamp (field d "time" (PInt 0))); simpl;
        split; discriminate.
Qed.

End Placemarks.

(** ** What a build depends on *)

Section Determinism.

Context `{PyLib}.

Lemma placemark_fst node w1 w2 :
  (eligible node = true -> clock w1 (reads w1) = clock w2 (reads w2)) ->
  fst (placemark node w1) = fst (placemark node w2).
Proof.
  destruct node as [| | | | | |d]; try reflexivity.
  rewrite !placemark_dict.
  destruct (eligible (PDict d)); [|reflexivity].
  intros Hc. rewrite (Hc eq_refl). reflexivity.
Qed.

Lemma placemarks_of_readings nodes : forall w1 w2,
  (forall i, (i < List.length (filter eligible nodes))%nat ->
     clock w1 (reads w1 + i) = clock w2 (reads w2 + i)) ->
  fst (placemarks_of nodes w1) = fst (placemarks_of nodes w2).
Proof.
  induction nodes as [|node rest IH]; intros w1 w2 Hc; [reflexivity|].
  rewrite !placemarks_of_cons.
  rewrite (surjective_pairing (placemark node w1)).
  rewrite (surjective_pairing (placemark node w2)).
  rewrite !placemark_world.
  simpl filter in Hc.
  assert (Hfst : fst (placemark node w1) = fst (placemark node w2)).
  { apply placemark_fst. intros He. rewrite He in Hc.
    specialize (Hc 0%nat). rewrite !Nat.add_0_r in Hc. apply Hc. simpl. lia. }
  rewrite Hfst. destruct (fst (placemark node w2)) as [p|e]; [|reflexivity].
  assert (Hrest : fst (placemarks_of rest (if eligible node then tick 1 w1 else w1)) =
                  fst (placemarks_of rest (if eligible node then tick 1 w2 else w2))).
  { apply IH. intros i Hi. destruct (eligible node).
    - simpl. specialize (Hc (S i)). rewrite !Nat.add_succ_r in Hc.
      apply Hc. simpl. lia.
    - now apply Hc. }
  destruct (placemarks_of rest (if eligible node then tick 1 w1 else w1)) as [r1 v1].
  destruct (placemarks_of rest (if eligible node then tick 1 w2 else w2)) as [r2 v2].
  simpl in Hrest. subst r2. now destruct r1.
Qed.

(** C3, as amended.  [build_kml] takes the records only; [icon_href] reads
    the clock itself, once for each eligible record.  The result of a build
    is determined by the records and by those readings: two builds of the
    same records whose clocks give the same readings, as many as there are
    eligible records, end alike, with the same document or the same
    exception. *)
Theorem build_kml_readings nodes w1 w2 :
  (forall i, (i < List.length (filter eligible nodes))%nat ->
     clock w1 (reads w1 + i) = clock w2 (reads w2 + i)) ->
  fst (build_kml (PList nodes) w1) = fst (build_kml (PList nodes) w2).
Proof.
  intros Hc. rewrite !build_kml_list.
  pose proof (placemarks_of_readings nodes w1 w2 Hc) as Hp.
  destruct (placemarks_of nodes w1) as [r1 v1].
  destruct (placemarks_of nodes w2) as [r2 v2].
  simpl in Hp. subst r2. now destruct r1.
Qed.

(** Under a clock that stands still, two equal records get equal
    placemarks, or none. *)
Lemma still_build_twice node now answer doc :
  fst (build_kml (PList [node; node]) (still_world now answer)) = Ok doc ->
  placemarks doc = [] \/ exists pm, placemarks doc = [pm; pm].
Proof.
  intros Hb.
  destruct (build_kml (PList [node; node]) (still_world now answer))
    as [r w'] eqn:Hbuild.
  simpl in Hb. subst r. apply build_kml_placemarks in Hbuild.
  rewrite placemarks_of_cons in Hbuild.
  destruct node as [| | | | | |d]; try discriminate.
  rewrite placemark_dict in Hbuild.
  destruct (eligible (PDict d)) eqn:He.
  - destruct (fromtimestamp (field d "time" (PInt 0))) as [reported|e] eqn:Ht;
      [|discriminate].
    rewrite placemarks_of_cons, placemark_dict, He, Ht in Hbuild. simpl in Hbuild.
    injection Hbuild as <- _. right. eexists. reflexivity.
  - rewrite placemarks_of_cons, placemark_dict, He in Hbuild. simpl in Hbuild.
    injection Hbuild as <- _. now left.
Qed.

End Determinism.

Lemma build_kml_readings_witness :
  (forall i, (i < List.length (filter eligible [R1; R2; R3; R4]))%nat ->
     clock (still_world (NOW * MICRO) (Ok (PList []))) (reads (still_world (NOW * MICRO) (Ok (PList []))) + i) =
     clock (later_world (NOW * MICRO)) (reads (later_world (NOW * MICRO)) + i)) /\
  fst (build_kml (H := plain_lib) (PList [R1; R2; R3; R4])
         (still_world (NOW * MICRO) (Ok (PList [])))) =
  fst (build_kml (H := plain_lib) (PList [R1; R2; R3; R4])
         (later_world (NOW * MICRO))).
Proof.
  assert (Hc : forall i, (i < List.length (filter eligible [R1; R2; R3; R4]))%nat ->
     clock (still_world (NOW * MICRO) (Ok (PList []))) (reads (still_world (NOW * MICRO) (Ok (PList []))) + i) =
     clock (later_world (NOW * MICRO)) (reads (later_world (NOW * MICRO)) + i))
    by (intros i _; reflexivity).
  split; [exact Hc|].
  exact (build_kml_readings (H := plain_lib) [R1; R2; R3; R4] _ _ Hc).
Defined.

(** C3, as stated, fails: the time is not an argument.  In one call of
    [build_kml], under a clock that moves on by a microsecond between two
    readings, two equal records get two different icons; no value of a
    [now] that holds for the whole build gives that document. *)
Lemma build_kml_reads_the_clock :
  exists doc,
    fst (build_kml (H := plain_lib) (PList [R5; R5])
           (running_world NOW (Ok (PList [])))) = Ok doc /\
    map (path_text HREF) (placemarks doc) =
      [Some (PStr ICON_GREEN); Some (PStr ICON_RED)] /\
    forall now answer,
      fst (build_kml (H := plain_lib) (PList [R5; R5]) (still_world now answer))
      <> Ok doc.
Proof.
  eexists. split; [reflexivity|]. split; [reflexivity|].
  intros now answer Hb. apply still_build_twice in Hb.
  destruct Hb as [Hnil|[pm Hpm]].
  - discriminate Hnil.
  - vm_compute in Hpm. injection Hpm as Hgreen Hred. subst pm. discriminate Hred.
Qed.

(** ** A refresh cycle *)

Section Refresh.

Context `{PyLib}.

Lemma placemarks_of_world nodes : forall w,
  exists k, snd (placemarks_of nodes w) = tick k w.
Proof.
  induction nodes as [|node rest IH]; intros w.
  - exists 0%nat. simpl. now rewrite tick_0.
  - rewrite placemarks_of_cons.
    pose proof (placemark_world node w) as Hw.
    destruct (placemark node w) as [[p|e] w1]; simpl in Hw; subst w1.
    + destruct (IH (if eligible node then tick 1 w else w)) as [k Hk].
      destruct (placemarks_of rest (if eligible node then tick 1 w else w))
        as [[ps|e] w2]; simpl in Hk; subst w2;
        (destruct (eligible node);
         [exists (k + 1)%nat; simpl; now rewrite tick_tick | exists k; reflexivity]).
    + destruct (eligible node); [exists 1%nat | exists 0%nat; rewrite tick_0];
        reflexivity.
Qed.

(** A build leaves the world as it found it, but for the readings of the
    clock it has taken. *)
Lemma build_kml_world nodes w : exists k, snd (build_kml nodes w) = tick k w.
Proof.
  unfold build_kml, bind, lift.
  destruct (py_iter nodes) as [items|e].
  - destruct (placemarks_of_world items w) as [k Hk].
    destruct (placemarks_of items w) as [[pms|e] w1]; simpl in *; subst w1;
      now exists k.
  - exists 0%nat. now rewrite tick_0.
Qed.

(** What a build returns or raises depends on the world through the clock
    only. *)
Lemma build_kml_clock nodes w1 w2 :
  clock w1 = clock w2 -> reads w1 = reads w2 ->
  fst (build_kml nodes w1) = fst (build_kml nodes w2).
Proof.
  intros Hc Hr. unfold build_kml, bind, lift.
  destruct (py_iter nodes) as [items|e]; [|reflexivity].
  assert (Hp : fst (placemarks_of items w1) = fst (placemarks_of items w2)).
  { apply placemarks_of_readings. intros i _. now rewrite Hc, Hr. }
  destruct (placemarks_of items w1) as [r1 v1].
  destruct (placemarks_of items w2) as [r2 v2].
  simpl in Hp. subst r2. now destruct r1.
Qed.

(** The output file after the [try] statement: untouched when the request,
    the count of the entries or the build raises; otherwise what the
    serialiser has emitted, be it the whole document or, when it raises
    half-way, the part written until then. *)
Lemma refresh_file w :
  kml_file (snd (refresh w)) =
  match network w (fetches w) with
  | Raise _ => kml_file w
  | Ok nodes =>
      match py_len nodes with
      | Raise _ => kml_file w
      | Ok _ =>
          match fst (build_kml nodes (tick 2 w)) with
          | Raise _ => kml_file w
          | Ok tree => Some (fst (et_serialize tree))
          end
      end
  end.
Proof.
  unfold refresh, try_except, bind, datetime_now, print, fetch_nodes, lift; simpl.
  destruct (network w (fetches w)) as [nodes|e]; [|reflexivity].
  destruct (py_len nodes) as [n|e]; [|reflexivity].
  match goal with
  | |- context [build_kml nodes ?W] =>
      rewrite (surjective_pairing (build_kml nodes W));
      rewrite (build_kml_clock nodes W (tick 2 w) eq_refl eq_refl);
      destruct (build_kml_world nodes W) as [k ->]
  end.
  destruct (fst (build_kml nodes (tick 2 w))) as [tree|e]; [|reflexivity].
  unfold tree_write. destruct (et_serialize tree) as [emitted [e|]]; reflexivity.
Qed.

(** The [try] statement lets no exception through, and starts no timer. *)
Lemma refresh_returns w :
  fst (refresh w) = Ok tt /\ timers (snd (refresh w)) = timers w.
Proof.
  unfold refresh, try_except, bind, datetime_now, print, fetch_nodes, lift; simpl.
  destruct (network w (fetches w)) as [nodes|e]; [|now split].
  destruct (py_len nodes) as [n|e]; [|now split].
  match goal with
  | |- context [build_kml nodes ?W] =>
      rewrite (surjective_pairing (build_kml nodes W));
      destruct (build_kml_world nodes W) as [k ->]
  end.
  match goal with
  | |- context [fst ?B] => destruct (fst B) as [tree|e]; [|now split]
  end.
  unfold tree_write. destruct (et_serialize tree) as [emitted [e|]]; now split.
Qed.

Lemma update_kml_run w :
  update_kml w = (Ok tt, snd (timer_start UPDATE_INTERVAL (snd (refresh w)))).
Proof.
  unfold update_kml, bind.
  destruct (refresh_returns w) as [Hr _].
  destruct (refresh w) as [r w1]. simpl in Hr. now subst r.
Qed.

(** C4.  When the request raises, or the build of the document does, the
    cycle leaves the output file as it was, with its former content or
    still missing, and [update_kml] returns normally: the exception stops
    at the [try] statement.  The build finds the clock two readings further
    than the cycle did, for the stamps of the two lines printed before. *)
Theorem update_kml_failure w :
  (exists e, network w (fetches w) = Raise e) \/
  (exists nodes e,
     network w (fetches w) = Ok nodes /\
     fst (build_kml nodes (tick 2 w)) = Raise e) ->
  kml_file (snd (update_kml w)) = kml_file w /\
  fst (update_kml w) = Ok tt.
Proof.
  intros Hfail. rewrite update_kml_run. split; [|reflexivity].
  unfold timer_start; simpl. rewrite refresh_file.
  destruct Hfail as [[e ->]|[nodes [e [-> Hb]]]]; [reflexivity|].
  rewrite Hb. now destruct (py_len nodes).
Qed.

(** Whether the cycle went well or not, [update_kml] ends by starting one
    timer of 300 seconds. *)
Lemma update_kml_timer w :
  timers (snd (update_kml w)) = (timers w ++ [300])%list.
Proof.
  rewrite update_kml_run. unfold timer_start; simpl.
  destruct (refresh_returns w) as [_ ->]. reflexivity.
Qed.

(** ** The scheduler *)

(** An activation that runs alone goes through its two steps and leaves the
    world as [update_kml] does. *)
Lemma update_kml_steps s :
  running s = [InTry] ->
  steps s (System (snd (update_kml (sys_world s))) [] 0).
Proof.
  intros Hr. rewrite update_kml_run.
  eapply steps_next.
  - eapply steps_next; [apply steps_refl|].
    apply (step_try s [] []). exact Hr.
  - apply (step_timer
             (System (snd (refresh (sys_world s))) [AtTimer] (since_done s)) [] []).
    reflexivity.
Qed.

Lemma chained_step s s' : chained s -> step s s' -> chained s'.
Proof.
  intros Hc Hs.
  destruct Hs as [s d Hd|s l1 r l2 Ht Hr|s a1 a2 Ha|s a1 a2 Ha]; simpl.
  - destruct Hc as [[a [Hrun Htm]]|[Hrun [r [Htm Hsum]]]].
    + left. exists a. simpl. rewrite Htm. now split.
    + right. simpl. rewrite Htm. split; [exact Hrun|].
      exists (r - d). split; [reflexivity|lia].
  - destruct Hc as [[a [Hrun Htm]]|[Hrun [r0 [Htm Hsum]]]].
    + rewrite Htm in Ht. now destruct l1.
    + rewrite Htm in Ht. left. exists InTry. simpl. rewrite Hrun.
      destruct l1 as [|x l1].
      * injection Ht as _ <-. now split.
      * injection Ht as _ Ht. now destruct l1.
  - destruct Hc as [[a [Hrun Htm]]|[Hrun _]].
    + rewrite Hrun in Ha. left. exists AtTimer. simpl.
      destruct (refresh_returns (sys_world s)) as [_ ->].
      split; [|exact Htm].
      destruct a1 as [|x a1].
      * injection Ha as _ <-. reflexivity.
      * injection Ha as _ Ha. now destruct a1.
    + rewrite Hrun in Ha. now destruct a1.
  - destruct Hc as [[a [Hrun Htm]]|[Hrun _]].
    + rewrite Hrun in Ha. right. simpl. rewrite Htm.
      split.
      * destruct a1 as [|x a1].
        -- injection Ha as _ <-. reflexivity.
        -- injection Ha as _ Ha. now destruct a1.
      * exists UPDATE_INTERVAL. split; [reflexivity|lia].
    + rewrite Hrun in Ha. now destruct a1.
Qed.

Lemma chained_steps s0 s : chained s0 -> steps s0 s -> chained s.
Proof.
  intros Hc Hs. induction Hs as [|s1 s2 s3 _ IH Hstep]; [exact Hc|].
  eapply chained_step; [apply IH; exact Hc | exact Hstep].
Qed.

(** C5.  From the start of the process on, in every state it reaches:
    activations of [update_kml] under way and pending timers are one in all,
    so that no two cycles ever run at once, no timer is pending while a
    cycle runs, and a cycle that has ended, well or not, has always left
    one timer behind; and a pending timer has as many seconds left as are
    missing to 300 since that cycle returned, so that the next cycle starts
    300 seconds after the end of the last, not after its start. *)
Theorem single_flight s0 s :
  initial s0 ->
  steps s0 s ->
  (List.length (running s) + List.length (timers (sys_world s)) = 1)%nat /\
  (forall r, In r (timers (sys_world s)) -> r + since_done s = 300).
Proof.
  intros [Hrun Htm] Hs.
  assert (Hc : chained s).
  { apply (chained_steps (s0 := s0)); [|exact Hs]. left. now exists InTry. }
  destruct Hc as [[a [-> ->]]|[-> [r [-> Hsum]]]]; split; try reflexivity.
  - intros r [].
  - intros r' [<-|[]]. exact Hsum.
Qed.

End Refresh.

(** ** The scenarios of the specification *)

Example fmt_time_epoch : fmt_time (H := plain_lib) (PInt 0) = Ok "1970-01-01 00:00:00 UTC".
Proof. reflexivity. Qed.

Example fmt_time_now : fmt_time (H := plain_lib) (PInt NOW) = Ok "2023-11-14 22:13:20 UTC".
Proof. reflexivity. Qed.

Example fmt_time_last : fmt_time (H := plain_lib) (PInt MAX_TIMESTAMP) = Ok "9999-12-31 23:59:59 UTC".
Proof. reflexivity. Qed.

Example fmt_time_too_late : fmt_time (H := plain_lib) (PInt (MAX_TIMESTAMP + 1)) = Raise ValueError.
Proof. reflexivity. Qed.

Example fmt_time_gmtime_gives_up :
  fmt_time (H := plain_lib) (PInt (2 ^ 62)) = Raise OSError.
Proof. reflexivity. Qed.

Example fmt_time_no_time_t :
  fmt_time (H := plain_lib) (PInt (2 ^ 63)) = Raise OverflowError.
Proof. reflexivity. Qed.

Example fmt_time_None : fmt_time (H := plain_lib) PNone = Raise TypeError.
Proof. reflexivity. Qed.

(** A keyed node reporting now: one placemark, yellow, keyed [Yes]. *)
Example scenario_R1 :
  built [R1] W0 =
  Some [[ Some (PStr "R1"); Some (PStr ICON_YELLOW);
          Some (PStr "2023-11-14 22:13:20 UTC"); Some (PStr "Yes");
          Some (PStr "-105,40,0") ]].
Proof. reflexivity. Qed.

(** A node last heard of an hour ago: one placemark, red, keyed [No]. *)
Example scenario_R2 :
  built [R2] W0 =
  Some [[ Some (PStr "R2"); Some (PStr ICON_RED);
          Some (PStr "2023-11-14 21:13:20 UTC"); Some (PStr "No");
          Some (PStr "-105,40,0") ]].
Proof. reflexivity. Qed.

(** A hidden node, and a node without coordinates: no placemark. *)
Example scenario_R3 : built [R3] W0 = Some [].
Proof. reflexivity. Qed.

Example scenario_R4 : built [R4] W0 = Some [].
Proof. reflexivity. Qed.

(** A node with its coordinates only: every default shows. *)
Example scenario_BARE :
  built [BARE] W0 =
  Some [[ Some (PStr "Unnamed"); Some (PStr ICON_RED);
          Some (PStr "1970-01-01 00:00:00 UTC"); Some (PStr "No");
          Some (PStr "-105,40,0") ]].
Proof. reflexivity. Qed.

(** The records come out in the order they came in. *)
Example scenario_order :
  option_map (map (fun pm => nth 0 pm None)) (built [R3; R2; R4; BARE; R1] W0) =
  Some [ Some (PStr "R2"); Some (PStr "Unnamed"); Some (PStr "R1") ].
Proof. reflexivity. Qed.

(** One record with a time in milliseconds and the whole build raises. *)
Example scenario_R6 : built [R1; R6; R2] W0 = None.
Proof. reflexivity. Qed.

(** A list that holds something else than dicts, and an answer that is no
    list. *)
Example build_kml_not_dicts :
  fst (build_kml (H := plain_lib) (PList [PInt 1]) W0) = Raise AttributeError.
Proof. reflexivity. Qed.

Example build_kml_not_iterable :
  fst (build_kml (H := plain_lib) (PInt 1) W0) = Raise TypeError.
Proof. reflexivity. Qed.

(** A cycle that goes well: three lines printed, the file written, one
    timer started. *)
Example cycle_W0 :
  let w := snd (update_kml (H := plain_lib) W0) in
  (map log_text (stdout w), kml_file w, timers w, reads w, fetches w) =
  ([ "Fetching node data …"; "Got 4 entries, building KML …";
     "KML written to nggmrs_repeaters.kml" ],
   Some EmptyString, [300], 5%nat, 1%nat).
Proof. reflexivity. Qed.

(** A cycle whose build raises on a record with a time in milliseconds:
    the document on file stays, the error is printed, the timer is started
    all the same. *)
Example cycle_bad_record :
  let w := snd (update_kml (H := plain_lib)
                  (World (fun _ => NOW * MICRO) 0 (fun _ => Ok (PList [R1; R6])) 0
                         (Some "<kml/>") [] [])) in
  (map log_text (stdout w), kml_file w, timers w) =
  ([ "Fetching node data …"; "Got 2 entries, building KML …"; "ERROR: error" ],
   Some "<kml/>", [300]).
Proof. reflexivity. Qed.

(** ** The properties at work on the scenarios *)


Lemma build_kml_count_witness :
  exists doc w',
    build_kml (H := plain_lib) (PList [R1; R2; R3; R4]) W0 = (Ok doc, w') /\
    List.length (placemarks doc) = 2%nat.
Proof.
  eexists. eexists. split; [reflexivity|].
  exact (proj1 (build_kml_count (H := plain_lib) [R1; R2; R3; R4] W0 eq_refl)).
Defined.

Lemma build_kml_order_witness :
  exists doc w',
    build_kml (H := plain_lib) (PList [R3; R2; R4; R1]) W0 = (Ok doc, w') /\
    Forall2 (fun node pm =>
               exists w1, placemark (H := plain_lib) node w1 = (Ok (Some pm), tick 1 w1))
            [R2; R1] (placemarks doc).
Proof.
  eexists. eexists. split; [reflexivity|].
  exact (build_kml_order (H := plain_lib) [R3; R2; R4; R1] W0 eq_refl).
Defined.

Lemma placemark_coordinates_witness :
  exists pm w',
    placemark (H := plain_lib) R1 W0 = (Ok (Some pm), w') /\
    path_text ["Point"; "coordinates"] pm = Some (PStr "-105,40,0").
Proof.
  eexists. eexists. split; [reflexivity|].
  destruct (placemark_coordinates (H := plain_lib) R1 W0 eq_refl)
    as [lon [lat [Hlon [Hlat Hc]]]].
  injection Hlon as <-. injection Hlat as <-. exact Hc.
Defined.

Lemma keyed_only_string_1_witness :
  exists pm w',
    placemark (H := plain_lib) R1 W0 = (Ok (Some pm), w') /\
    path_text HREF pm = Some (PStr ICON_YELLOW) /\
    data_text "keyed" pm = Some (PStr "Yes").
Proof.
  eexists. eexists. split; [reflexivity|].
  exact (proj1 (keyed_only_string_1 (H := plain_lib)
                  [ ("name", PStr "R1"); ("latitude", PInt 40);
                    ("longitude", PInt (-105)); ("keyed", PStr "1");
                    ("time", PInt NOW) ] W0 eq_refl) eq_refl).
Defined.

(** A record with its coordinates and nothing else. *)
Lemma missing_fields_defaulted_witness :
  eligible BARE = true /\
  match dict_lookup [ ("latitude", PInt 40); ("longitude", PInt (-105)) ] "time" with
  | Some t => fromtimestamp (H := plain_lib) t = Ok 0
  | None => 0 = 0
  end /\
  exists pm,
    placemark (H := plain_lib) BARE W0 = (Ok (Some pm), tick 1 W0) /\
    path_text ["name"] pm = Some (PStr "Unnamed") /\
    path_text ["description"] pm = Some (PStr EmptyString) /\
    path_text HREF pm = Some (PStr ICON_RED) /\
    data_text "keyed" pm = Some (PStr "No") /\
    data_text "lastReport" pm = Some (PStr "1970-01-01 00:00:00 UTC").
Proof.
  split; [reflexivity|]. split; [reflexivity|].
  destruct (@missing_fields_defaulted plain_lib
              [ ("latitude", PInt 40); ("longitude", PInt (-105)) ] W0 0
              eq_refl eq_refl)
    as [pm [Hpm [Hname [Hdescription [Hkeyed Htime]]]]].
  exists pm. split; [exact Hpm|].
  split; [exact (Hname eq_refl)|].
  split; [exact (Hdescription eq_refl)|].
  split; [exact (proj1 (Hkeyed eq_refl))|].
  split; [exact (proj2 (Hkeyed eq_refl))|].
  exact (proj1 (Htime eq_refl)).
Defined.

Lemma hidden_by_truth_value_witness :
  dict_lookup [ ("name", PStr "R7"); ("hidden", PStr "false");
                ("latitude", PInt 1); ("longitude", PInt 1) ] "hidden"
    = Some (PStr "false") /\
  Truthy (PStr "false") /\
  placemark (H := plain_lib) R7 W0 = (Ok None, W0).
Proof.
  split; [reflexivity|]. split; [constructor|].
  exact (proj1 (hidden_by_truth_value (H := plain_lib)
                  [ ("name", PStr "R7"); ("hidden", PStr "false");
                    ("latitude", PInt 1); ("longitude", PInt 1) ] W0)
               (PStr "false") eq_refl (Truthy_str _ _)).
Defined.

(** The network is down: the document on file stays. *)
Lemma update_kml_failure_witness :
  (exists e, network (later_world (NOW * MICRO))
               (fetches (later_world (NOW * MICRO))) = Raise e) /\
  kml_file (snd (update_kml (H := plain_lib) (later_world (NOW * MICRO))))
    = Some "<kml/>" /\
  fst (update_kml (H := plain_lib) (later_world (NOW * MICRO))) = Ok tt.
Proof.
  assert (Hdown : exists e, network (later_world (NOW * MICRO))
                              (fetches (later_world (NOW * MICRO))) = Raise e)
    by (exists OSError; reflexivity).
  split; [exact Hdown|].
  exact (update_kml_failure (H := plain_lib) (later_world (NOW * MICRO))
           (or_introl Hdown)).
Defined.

(** The first cycle, from the call at the entry point to its return. *)
Lemma single_flight_witness :
  initial START /\
  steps (H := plain_lib) START AFTER_ONE_CYCLE /\
  (List.length (running AFTER_ONE_CYCLE) +
   List.length (timers (sys_world AFTER_ONE_CYCLE)) = 1)%nat /\
  (forall r, In r (timers (sys_world AFTER_ONE_CYCLE)) ->
     r + since_done AFTER_ONE_CYCLE = 300).
Proof.
  assert (Hi : initial START) by (split; reflexivity).
  assert (Hs : steps (H := plain_lib) START AFTER_ONE_CYCLE)
    by (apply (update_kml_steps (H := plain_lib) START); reflexivity).
  split; [exact Hi|]. split; [exact Hs|].
  exact (single_flight (H := plain_lib) Hi Hs).
Defined.

(** * Further properties *)

(** ** More on the build *)

Section Build.

Context `{PyLib}.

Lemma placemark_node_error node w :
  match node_error node with
  | Some e => fst (placemark node w) = Raise e
  | None => exists p, fst (placemark node w) = Ok p
  end.
Proof.
  destruct node as [| | | | | |d]; try reflexivity.
  unfold node_error. rewrite placemark_dict.
  destruct (eligible (PDict d)); [|now exists None].
  destruct (fromtimestamp (field d "time" (PInt 0))); [|reflexivity].
  eexists. reflexivity.
Qed.

Lemma placemarks_of_first_error nodes : forall w,
  match first_error nodes with
  | Some e => fst (placemarks_of nodes w) = Raise e
  | None => exists pms, fst (placemarks_of nodes w) = Ok pms
  end.
Proof.
  induction nodes as [|node rest IH]; intros w.
  - now exists [].
  - simpl first_error. rewrite placemarks_of_cons.
    pose proof (placemark_node_error node w) as Hn.
    destruct (node_error node) as [e|].
    + destruct (placemark node w) as [r w1]. simpl in Hn. now subst r.
    + destruct Hn as [p Hp].
      destruct (placemark node w) as [r w1]. simpl in Hp. subst r.
      specialize (IH w1).
      destruct (first_error rest) as [e|].
      * destruct (placemarks_of rest w1) as [r w2]. simpl in IH. now subst r.
      * destruct IH as [pms Hpms].
        destruct (placemarks_of rest w1) as [r w2]. simpl in Hpms. subst r.
        eexists. reflexivity.
Qed.

(** X1.  A build is all or nothing: it raises the exception of the first
    record, in input order, that is no dict or that is eligible with a time
    field that is no timestamp, whatever the records around it; it returns a
    document when there is no such record.  A record that is skipped is not
    checked. *)
Theorem build_kml_first_error nodes w :
  match first_error nodes with
  | Some e => fst (build_kml (PList nodes) w) = Raise e
  | None => exists doc, fst (build_kml (PList nodes) w) = Ok doc
  end.
Proof.
  rewrite build_kml_list.
  pose proof (placemarks_of_first_error nodes w) as Hp.
  destruct (first_error nodes) as [e|].
  - destruct (placemarks_of nodes w) as [r w']. simpl in Hp. now subst r.
  - destruct Hp as [pms Hp].
    destruct (placemarks_of nodes w) as [r w']. simpl in Hp. subst r.
    eexists. reflexivity.
Qed.

Lemma placemarks_of_reads nodes : forall w pms w',
  placemarks_of nodes w = (Ok pms, w') ->
  w' = tick (List.length (filter eligible nodes)) w.
Proof.
  induction nodes as [|node rest IH]; intros w pms w'.
  - intros [= _ <-]. simpl. now rewrite tick_0.
  - rewrite placemarks_of_cons.
    pose proof (placemark_world node w) as Hw.
    destruct (placemark node w) as [[p|e] w1]; [|discriminate].
    simpl in Hw. subst w1.
    destruct (placemarks_of rest (if eligible node then tick 1 w else w))
      as [[ps|e] w2] eqn:Hps; [|discriminate].
    intros [= _ <-]. apply IH in Hps. subst w2. simpl.
    destruct (eligible node); [|reflexivity].
    simpl. rewrite tick_tick. f_equal. lia.
Qed.

(** X2.  A build that returns has read the clock once for each eligible
    record and has done nothing else to the world: no request, no line
    printed, no file written, no timer started. *)
Theorem build_kml_reads nodes w doc w' :
  build_kml (PList nodes) w = (Ok doc, w') ->
  w' = tick (List.length (filter eligible nodes)) w.
Proof.
  intros Hb. apply build_kml_placemarks in Hb.
  eapply placemarks_of_reads. exact Hb.
Qed.

Lemma placemarks_of_filter nodes : forall w,
  forallb is_dict nodes = true ->
  placemarks_of (filter eligible nodes) w = placemarks_of nodes w.
Proof.
  induction nodes as [|node rest IH]; intros w Hd; [reflexivity|].
  simpl in Hd. apply andb_true_iff in Hd. destruct Hd as [Hn Hrest].
  destruct node as [| | | | | |d]; try discriminate.
  change (filter eligible (PDict d :: rest))
    with (if eligible (PDict d) then PDict d :: filter eligible rest
          else filter eligible rest).
  destruct (eligible (PDict d)) eqn:He.
  - rewrite !placemarks_of_cons.
    destruct (placemark (PDict d) w) as [[p|e] w1]; [|reflexivity].
    now rewrite IH.
  - rewrite (placemarks_of_cons (PDict d) rest), placemark_dict, He, IH by exact Hrest.
    now destruct (placemarks_of rest w) as [[ps|e] w2].
Qed.

(** X3.  In a list of dicts the records that are skipped leave no trace:
    the build of the whole list and the build of its eligible records alone
    end in the same way and in the same world. *)
Theorem build_kml_filter nodes w :
  forallb is_dict nodes = true ->
  build_kml (PList (filter eligible nodes)) w = build_kml (PList nodes) w.
Proof.
  intros Hd. rewrite !build_kml_list, (placemarks_of_filter _ _ Hd). reflexivity.
Qed.

Lemma placemark_is_tree node w pm w' :
  placemark node w = (Ok (Some pm), w') ->
  exists name description href last_report keyed coordinates,
    pm = placemark_tree name description href last_report keyed coordinates.
Proof.
  destruct node as [| | | | | |d]; try discriminate.
  rewrite placemark_dict.
  destruct (eligible (PDict d)); [|discriminate].
  destruct (fromtimestamp (field d "time" (PInt 0))); [|discriminate].
  intros [= <- _]. repeat eexists.
Qed.

Lemma filter_other_tag t l :
  (t =? "Placemark")%string = false ->
  Forall (fun e => tag e = "Placemark") l ->
  filter (fun c => (tag c =? t)%string) l = [].
Proof.
  intros Ht. induction 1 as [|e l He _ IH]; [reflexivity|].
  simpl. rewrite He, String.eqb_sym, Ht. exact IH.
Qed.

(** X5.  Whatever the number of records, a built document has one
    [Document] with one [Style], of id [repeaterStyle], and the [styleUrl]
    of every placemark is the reference to that id. *)
Theorem document_shared_style nodes w doc w' :
  build_kml (PList nodes) w = (Ok doc, w') ->
  exists document style,
    children doc = [document] /\ tag document = "Document" /\
    findall "Style" document = [style] /\
    get_attr "id" (attrib style) = Some "repeaterStyle" /\
    Forall (fun pm => path_text ["styleUrl"] pm = Some (PStr ("#" ++ "repeaterStyle")))
           (placemarks doc).
Proof.
  intros Hb. pose proof (build_kml_placemarks _ _ Hb) as Hp.
  rewrite build_kml_list in Hb.
  destruct (placemarks_of nodes w) as [[pms|e] w1] eqn:Hpms; [|discriminate].
  injection Hb as <- _. injection Hp as Hpl _.
  pose proof (placemarks_of_tags _ _ Hpms) as Htags.
  eexists. eexists. split; [reflexivity|]. split; [reflexivity|].
  split.
  { unfold findall. simpl.
    rewrite (filter_other_tag "Style" eq_refl Htags). reflexivity. }
  split; [reflexivity|].
  - rewrite <- Hpl. apply placemarks_of_eligible in Hpms.
    clear Hpl Htags. induction Hpms as [|node pm l l' [w2 Hpm] _ IH]; constructor.
    + apply placemark_is_tree in Hpm.
      destruct Hpm as [a [b [c [d [e [f ->]]]]]]. reflexivity.
    + exact IH.
Qed.

Lemma not_keyed_default d :
  py_eq_str (field d "keyed" (PStr "0")) "1" = py_eq_str (field d "keyed" PNone) "1".
Proof. unfold field. now destruct (dict_lookup d "keyed"). Qed.

(** X6.  In an emitted placemark the icon and the keyed datum agree: the
    icon is the yellow marker exactly when the datum reads [Yes]. *)
Theorem yellow_iff_keyed_yes node w pm w' :
  placemark node w = (Ok (Some pm), w') ->
  (path_text HREF pm = Some (PStr ICON_YELLOW) <->
   data_text "keyed" pm = Some (PStr "Yes")).
Proof.
  destruct node as [| | | | | |d]; try discriminate.
  rewrite placemark_dict.
  destruct (eligible (PDict d)); [|discriminate].
  destruct (fromtimestamp (field d "time" (PInt 0))) as [reported|e]; [|discriminate].
  intros [= <- _]. rewrite classify_eq, not_keyed_default.
  destruct (py_eq_str (field d "keyed" PNone) "1").
  - split; reflexivity.
  - destruct (timedelta_minutes 5 <? clock w (reads w) - reported);
      split; intros Heq; vm_compute in Heq; discriminate Heq.
Qed.

(** X7.  A name or a description that the record has goes into the
    placemark as it is, whatever its type: [None] stays [None], the default
    is for a missing field only, and nothing is turned into text. *)
Theorem present_fields_verbatim d w pm w' :
  placemark (PDict d) w = (Ok (Some pm), w') ->
  (forall v, dict_lookup d "name" = Some v -> path_text ["name"] pm = Some v) /\
  (forall v, dict_lookup d "description" = Some v ->
     path_text ["description"] pm = Some v).
Proof.
  rewrite placemark_dict.
  destruct (eligible (PDict d)); [|discriminate].
  destruct (fromtimestamp (field d "time" (PInt 0))); [|discriminate].
  intros [= <- _]. unfold field.
  split; intros v ->; reflexivity.
Qed.

(** X8.  An answer that is no list.  The build leaves the world alone and
    returns, with the document of no record, only for a dict or a string
    that is empty; a dict with a key or a string with a character is an
    [AttributeError], the loop being over keys or characters; anything else
    cannot be looped over. *)
Theorem build_kml_not_a_list v w :
  (forall l, v <> PList l) ->
  snd (build_kml v w) = w /\
  match py_len v with
  | Ok O => fst (build_kml v w) = Ok EMPTY_DOCUMENT
  | Ok (S _) => fst (build_kml v w) = Raise AttributeError
  | Raise _ => fst (build_kml v w) = Raise TypeError
  end.
Proof.
  intros Hl. destruct v as [| | | |s|l|d]; try (split; reflexivity).
  - destruct s; split; reflexivity.
  - now elim (Hl l).
  - destruct d; split; reflexivity.
Qed.

End Build.

(** ** More on the icon and the time *)

Section Time.

Context `{PyLib}.

Lemma int_timestamp_in_range z :
  MIN_TIMESTAMP <= z <= MAX_TIMESTAMP -> int_timestamp z = Ok (z * MICRO).
Proof.
  unfold MIN_TIMESTAMP, MAX_TIMESTAMP. intros Hz. unfold int_timestamp.
  assert (E1 : (z <? MIN_TIME_T) = false)
    by (apply Z.ltb_ge; unfold MIN_TIME_T;
        change (2 ^ 63) with 9223372036854775808; lia).
  assert (E2 : (MAX_TIME_T <? z) = false)
    by (apply Z.ltb_ge; unfold MAX_TIME_T;
        change (2 ^ 63) with 9223372036854775808; lia).
  assert (G1 : (z <? MIN_GMTIME) = false)
    by (apply Z.ltb_ge; unfold MIN_GMTIME; lia).
  assert (G2 : (MAX_GMTIME <? z) = false)
    by (apply Z.ltb_ge; unfold MAX_GMTIME; lia).
  assert (E3 : (z <? MIN_TIMESTAMP) = false)
    by (apply Z.ltb_ge; unfold MIN_TIMESTAMP; lia).
  assert (E4 : (MAX_TIMESTAMP <? z) = false)
    by (apply Z.ltb_ge; unfold MAX_TIMESTAMP; lia).
  now rewrite E1, E2, G1, G2, E3, E4.
Qed.

(** X9.  The threshold in seconds.  For a node that is not keyed and a time
    that is a whole number of seconds within the years 1 to 9999, the icon
    is red exactly when the clock reads more than 300 seconds after the
    report: a report exactly five minutes old is still green, and so is a
    report stamped in the future. *)
Theorem icon_href_threshold keyed z w :
  py_eq_str keyed "1" = false ->
  MIN_TIMESTAMP <= z <= MAX_TIMESTAMP ->
  fst (icon_href keyed (PInt z) w) =
  Ok (if (z + 300) * MICRO <? clock w (reads w) then ICON_RED else ICON_GREEN).
Proof.
  intros Hk Hz. rewrite icon_href_run. simpl fromtimestamp.
  rewrite (int_timestamp_in_range Hz), classify_eq, Hk. simpl fst.
  unfold timedelta_minutes, MICRO.
  destruct (Z.ltb_spec (5 * 60 * 1000000) (clock w (reads w) - z * 1000000));
    destruct (Z.ltb_spec ((z + 300) * 1000000) (clock w (reads w)));
    try reflexivity; lia.
Qed.

(** X10.  [fmt_time] and [icon_href] turn down the same time values, with
    the same exception, whatever the keyed flag and the clock. *)
Theorem fmt_time_raises_with_icon_href keyed ts w e :
  fmt_time ts = Raise e <-> fst (icon_href keyed ts w) = Raise e.
Proof.
  rewrite icon_href_run. unfold fmt_time.
  destruct (fromtimestamp ts); simpl; split; congruence.
Qed.

End Time.

(** ** More on the cycle *)

Section Cycle.

Context `{PyLib}.

(** The lines a [try] statement prints, after those printed before. *)
Lemma refresh_log w :
  map log_text (stdout (snd (refresh w))) =
  (map log_text (stdout w) ++
   LINE_FETCHING ::
   match network w (fetches w) with
   | Raise e => [ line_error e ]
   | Ok nodes =>
       match py_len nodes with
       | Raise e => [ line_error e ]
       | Ok n =>
           line_got n ::
           match fst (build_kml nodes (tick 2 w)) with
           | Raise e => [ line_error e ]
           | Ok tree =>
               match snd (et_serialize tree) with
               | Some e => [ line_error e ]
               | None => [ LINE_WRITTEN ]
               end
           end
       end
   end)%list.
Proof.
  unfold refresh, try_except, bind, datetime_now, print, fetch_nodes, lift; simpl.
  destruct (network w (fetches w)) as [nodes|e];
    [|simpl; rewrite !map_app, <- !app_assoc; reflexivity].
  destruct (py_len nodes) as [n|e];
    [|simpl; rewrite !map_app, <- !app_assoc; reflexivity].
  match goal with
  | |- context [build_kml nodes ?W] =>
      rewrite (surjective_pairing (build_kml nodes W));
      rewrite (build_kml_clock nodes W (tick 2 w) eq_refl eq_refl);
      destruct (build_kml_world nodes W) as [k ->]
  end.
  destruct (fst (build_kml nodes (tick 2 w))) as [tree|e];
    [|simpl; rewrite !map_app, <- !app_assoc; reflexivity].
  unfold tree_write. destruct (et_serialize tree) as [emitted [e|]]; simpl;
    rewrite !map_app, <- !app_assoc; reflexivity.
Qed.

(** A [try] statement makes one request and leaves the network and the
    clock as they are. *)
Lemma refresh_frame w :
  fetches (snd (refresh w)) = S (fetches w) /\
  network (snd (refresh w)) = network w /\
  clock (snd (refresh w)) = clock w.
Proof.
  unfold refresh, try_except, bind, datetime_now, print, fetch_nodes, lift; simpl.
  destruct (network w (fetches w)) as [nodes|e]; [|now repeat split].
  destruct (py_len nodes) as [n|e]; [|now repeat split].
  match goal with
  | |- context [build_kml nodes ?W] =>
      rewrite (surjective_pairing (build_kml nodes W));
      destruct (build_kml_world nodes W) as [k ->]
  end.
  match goal with
  | |- context [fst ?B] => destruct (fst B) as [tree|e]; [|now repeat split]
  end.
  unfold tree_write. destruct (et_serialize tree) as [emitted [e|]]; now repeat split.
Qed.

(** X11.  A cycle makes one request, whatever comes of it: nothing is tried
    a second time. *)
Theorem update_kml_one_request w :
  fetches (snd (update_kml w)) = S (fetches w).
Proof.
  rewrite update_kml_run. unfold timer_start; simpl.
  now destruct (refresh_frame w) as [-> _].
Qed.

(** X12.  A cycle in which the request, the build and the serialiser all
    succeed puts the whole serialised document in the file and prints its
    three lines. *)
Theorem update_kml_success w nodes n tree content :
  network w (fetches w) = Ok nodes ->
  py_len nodes = Ok n ->
  fst (build_kml nodes (tick 2 w)) = Ok tree ->
  et_serialize tree = (content, None) ->
  kml_file (snd (update_kml w)) = Some content /\
  map log_text (stdout (snd (update_kml w))) =
  (map log_text (stdout w) ++
   [ LINE_FETCHING; line_got n; LINE_WRITTEN ])%list.
Proof.
  intros Hn Hl Hb Hs. rewrite update_kml_run. unfold timer_start; simpl.
  rewrite refresh_file, refresh_log, Hn, Hl, Hb, Hs. now split.
Qed.

(** X13.  A cycle in which the serialiser raises half-way does replace the
    file: what is left in it is what had been emitted until then, not the
    former document.  The cycle prints the error instead of the third line,
    returns normally and starts the timer. *)
Theorem update_kml_write_failure w nodes n tree emitted e :
  network w (fetches w) = Ok nodes ->
  py_len nodes = Ok n ->
  fst (build_kml nodes (tick 2 w)) = Ok tree ->
  et_serialize tree = (emitted, Some e) ->
  kml_file (snd (update_kml w)) = Some emitted /\
  map log_text (stdout (snd (update_kml w))) =
  (map log_text (stdout w) ++
   [ LINE_FETCHING; line_got n; line_error e ])%list /\
  fst (update_kml w) = Ok tt /\
  timers (snd (update_kml w)) = (timers w ++ [300])%list.
Proof.
  intros Hn Hl Hb Hs. rewrite update_kml_run. unfold timer_start; simpl.
  rewrite refresh_file, refresh_log, Hn, Hl, Hb, Hs.
  destruct (refresh_returns w) as [_ ->]. now repeat split.
Qed.

(** X14.  The line [KML written] is to be trusted: a cycle that has printed
    it has fetched an answer, built a document from it and left the whole
    serialisation of that document in the file. *)
Theorem written_line_means_complete w :
  In LINE_WRITTEN
     (skipn (List.length (stdout w))
            (map log_text (stdout (snd (update_kml w))))) ->
  exists nodes tree content,
    network w (fetches w) = Ok nodes /\
    fst (build_kml nodes (tick 2 w)) = Ok tree /\
    et_serialize tree = (content, None) /\
    kml_file (snd (update_kml w)) = Some content.
Proof.
  rewrite update_kml_run. unfold timer_start; simpl.
  rewrite refresh_file, refresh_log.
  rewrite <- (length_map log_text (stdout w)), skipn_app, Nat.sub_diag.
  rewrite skipn_all. simpl.
  destruct (network w (fetches w)) as [nodes|e] eqn:Hn.
  - destruct (py_len nodes) as [n|e].
    + destruct (fst (build_kml nodes (tick 2 w))) as [tree|e] eqn:Hb.
      * destruct (et_serialize tree) as [content [e|]] eqn:Hs; simpl.
        -- intros [Hf|[Hg|[He|[]]]]; discriminate.
        -- intros _. exists nodes, tree, content. now repeat split.
      * simpl. intros [Hf|[Hg|[He|[]]]]; discriminate.
    + simpl. intros [Hf|[He|[]]]; discriminate.
  - simpl. intros [Hf|[He|[]]]; discriminate.
Qed.

End Cycle.

(** ** More on the process: the route and the timers *)

Section Process.

Context `{PyLib}.

Lemma refresh_keeps_a_file w :
  kml_file w <> None -> kml_file (snd (refresh w)) <> None.
Proof.
  intros Hf. rewrite refresh_file.
  destruct (network w (fetches w)) as [nodes|e]; [|exact Hf].
  destruct (py_len nodes) as [n|e]; [|exact Hf].
  destruct (fst (build_kml nodes (tick 2 w))); [discriminate|exact Hf].
Qed.

(** A step that is not the [try] statement of an activation leaves the file
    and the network alone. *)
Lemma step_world s s' :
  step s s' ->
  network (sys_world s') = network (sys_world s) /\
  (kml_file (sys_world s') = kml_file (sys_world s) \/
   sys_world s' = snd (refresh (sys_world s))).
Proof.
  destruct 1 as [s d Hd|s l1 r l2 Ht Hr|s a1 a2 Ha|s a1 a2 Ha]; simpl;
    try (split; [reflexivity|left; reflexivity]).
  split; [|right; reflexivity].
  now destruct (refresh_frame (sys_world s)) as [_ [-> _]].
Qed.

(** X15.  Once there is a file to send, there is one for ever: from a state
    in which [/kml] sends a file, no run of the process leads to a state in
    which it answers 404.  The file is rewritten, never removed. *)
Theorem served_once_served_for_ever s s' :
  (exists content, serve_kml (sys_world s) = SendFile content KML_MIMETYPE) ->
  steps s s' ->
  exists content', serve_kml (sys_world s') = SendFile content' KML_MIMETYPE.
Proof.
  intros Hserved Hsteps.
  assert (Hfile : forall w, kml_file w <> None <->
            exists content, serve_kml w = SendFile content KML_MIMETYPE).
  { intros w. unfold serve_kml, send_file.
    destruct (kml_file w) as [c|]; split.
    - intros _. now exists c.
    - discriminate.
    - intros Hn. now elim Hn.
    - intros [c Hc]. discriminate Hc. }
  apply Hfile. apply Hfile in Hserved.
  induction Hsteps as [|s1 s2 s3 _ IH Hstep]; [exact Hserved|].
  specialize (IH Hserved).
  destruct (step_world Hstep) as [_ [->| ->]]; [exact IH|].
  now apply refresh_keeps_a_file.
Qed.

(** X16.  While every request to the API raises, [/kml] answers as it did:
    whatever the process does in the meantime, the file sent stays the same
    and a file that is missing stays missing. *)
Theorem api_down_same_answer s s' :
  (forall n, exists e, network (sys_world s) n = Raise e) ->
  steps s s' ->
  serve_kml (sys_world s') = serve_kml (sys_world s).
Proof.
  intros Hdown Hsteps.
  assert (Hboth : network (sys_world s') = network (sys_world s) /\
                  kml_file (sys_world s') = kml_file (sys_world s)).
  { induction Hsteps as [|s1 s2 s3 _ IH Hstep]; [now split|].
    destruct (IH Hdown) as [Hnet Hfile].
    destruct (step_world Hstep) as [Hnet' Hfile'].
    split; [congruence|].
    destruct Hfile' as [->| ->]; [exact Hfile|].
    rewrite refresh_file, Hnet.
    destruct (Hdown (fetches (sys_world s2))) as [e ->]. exact Hfile. }
  unfold serve_kml, send_file. now destruct Hboth as [_ ->].
Qed.

End Process.

(** ** The icons under a clock that stands still *)

Section StillClock.

Context `{PyLib}.

Lemma placemarks_of_still nodes now : forall w pms w',
  (forall n, clock w n = now) ->
  placemarks_of nodes w = (Ok pms, w') ->
  Forall2 (fun node pm =>
             exists d reported,
               node = PDict d /\
               fromtimestamp (field d "time" (PInt 0)) = Ok reported /\
               path_text HREF pm =
                 Some (PStr (marker (classify (field d "keyed" (PStr "0"))
                                              reported now))))
          (filter eligible nodes) pms.
Proof.
  induction nodes as [|node rest IH]; intros w pms w' Hnow.
  - intros [= <- _]. constructor.
  - rewrite placemarks_of_cons.
    change (filter eligible (node :: rest))
      with (if eligible node then node :: filter eligible rest
            else filter eligible rest).
    destruct node as [| | | | | |d]; try discriminate.
    rewrite placemark_dict.
    destruct (eligible (PDict d)).
    + destruct (fromtimestamp (field d "time" (PInt 0))) as [reported|e] eqn:Ht;
        [|discriminate].
      destruct (placemarks_of rest (tick 1 w)) as [[ps|e] w2] eqn:Hps; [|discriminate].
      intros [= <- _]. constructor.
      * exists d, reported. rewrite Hnow. now repeat split.
      * eapply IH; [|exact Hps]. intros n. apply Hnow.
    + destruct (placemarks_of rest w) as [[ps|e] w2] eqn:Hps; [|discriminate].
      intros [= <- _]. eapply IH; [exact Hnow|exact Hps].
Qed.

(** X18.  When the clock gives the same instant at every reading of a
    build, the icon of each placemark is the marker of the status the
    specification's decision gives its record at that instant: keyed first,
    then stale, then normal. *)
Theorem build_kml_still_clock nodes w now doc w' :
  (forall n, clock w n = now) ->
  build_kml (PList nodes) w = (Ok doc, w') ->
  Forall2 (fun node pm =>
             exists d reported,
               node = PDict d /\
               fromtimestamp (field d "time" (PInt 0)) = Ok reported /\
               path_text HREF pm =
                 Some (PStr (marker (classify (field d "keyed" (PStr "0"))
                                              reported now))))
          (filter eligible nodes) (placemarks doc).
Proof.
  intros Hnow Hb. apply build_kml_placemarks in Hb.
  eapply placemarks_of_still; [exact Hnow|exact Hb].
Qed.

End StillClock.

(** ** The further properties at work *)

Lemma build_kml_reads_witness :
  exists doc w',
    build_kml (H := plain_lib) (PList [R1; R2; R3; R4]) W0 = (Ok doc, w') /\
    w' = tick 2 W0.
Proof.
  eexists. eexists. split; [reflexivity|].
  exact (build_kml_reads (H := plain_lib) [R1; R2; R3; R4] W0 eq_refl).
Defined.

Lemma build_kml_filter_witness :
  forallb is_dict [R3; R2; R4; R1] = true /\
  build_kml (H := plain_lib) (PList [R2; R1]) W0 =
  build_kml (H := plain_lib) (PList [R3; R2; R4; R1]) W0.
Proof.
  split; [reflexivity|].
  exact (build_kml_filter (H := plain_lib) [R3; R2; R4; R1] W0 eq_refl).
Defined.

Lemma document_shared_style_witness :
  exists doc w',
    build_kml (H := plain_lib) (PList [R1; R2]) W0 = (Ok doc, w') /\
    Forall (fun pm => path_text ["styleUrl"] pm = Some (PStr "#repeaterStyle"))
           (placemarks doc).
Proof.
  eexists. eexists. split; [reflexivity|].
  destruct (document_shared_style (H := plain_lib) [R1; R2] W0 eq_refl)
    as [document [style [_ [_ [_ [_ Hall]]]]]].
  exact Hall.
Defined.

Lemma yellow_iff_keyed_yes_witness :
  exists pm w',
    placemark (H := plain_lib) R2 W0 = (Ok (Some pm), w') /\
    (path_text HREF pm = Some (PStr ICON_YELLOW) <->
     data_text "keyed" pm = Some (PStr "Yes")).
Proof.
  eexists. eexists. split; [reflexivity|].
  exact (yellow_iff_keyed_yes (H := plain_lib) R2 W0 eq_refl).
Defined.

Lemma present_fields_verbatim_witness :
  exists pm w',
    placemark (H := plain_lib) R8 W0 = (Ok (Some pm), w') /\
    path_text ["name"] pm = Some (PInt 8) /\
    path_text ["description"] pm = Some PNone.
Proof.
  eexists. eexists. split; [reflexivity|].
  destruct (present_fields_verbatim (H := plain_lib)
              [ ("name", PInt 8); ("description", PNone);
                ("latitude", PInt 40); ("longitude", PInt (-105)) ] W0 eq_refl)
    as [Hname Hdescription].
  split; [exact (Hname _ eq_refl)|exact (Hdescription _ eq_refl)].
Defined.

(** An answer that is an object with an error message in it. *)
Lemma build_kml_not_a_list_witness :
  (forall l, PDict [("error", PStr "too many requests")] <> PList l) /\
  build_kml (H := plain_lib) (PDict [("error", PStr "too many requests")]) W0 =
  (Raise AttributeError, W0).
Proof.
  assert (Hl : forall l, PDict [("error", PStr "too many requests")] <> PList l)
    by (intros l; discriminate).
  split; [exact Hl|].
  destruct (build_kml_not_a_list (H := plain_lib) W0 Hl) as [Hw Hr].
  apply injective_projections; [exact Hr|exact Hw].
Defined.

(** Exactly five minutes after the report the icon is still green. *)
Lemma icon_href_threshold_witness :
  py_eq_str (PStr "0") "1" = false /\
  MIN_TIMESTAMP <= NOW - 300 <= MAX_TIMESTAMP /\
  fst (icon_href (H := plain_lib) (PStr "0") (PInt (NOW - 300)) W0) = Ok ICON_GREEN.
Proof.
  assert (Hz : MIN_TIMESTAMP <= NOW - 300 <= MAX_TIMESTAMP)
    by (split; discriminate).
  split; [reflexivity|]. split; [exact Hz|].
  exact (icon_href_threshold (H := plain_lib) (PStr "0") W0 eq_refl Hz).
Defined.

Lemma update_kml_success_witness :
  network W0 (fetches W0) = Ok (PList [R1; R2; R3; R4]) /\
  py_len (PList [R1; R2; R3; R4]) = Ok 4%nat /\
  (exists tree,
     fst (build_kml (H := plain_lib) (PList [R1; R2; R3; R4]) (tick 2 W0)) = Ok tree /\
     et_serialize (PyLib := plain_lib) tree = (EmptyString, None)) /\
  kml_file (snd (update_kml (H := plain_lib) W0)) = Some EmptyString.
Proof.
  split; [reflexivity|]. split; [reflexivity|]. split.
  - eexists. split; reflexivity.
  - exact (proj1 (update_kml_success (H := plain_lib) W0
                    (nodes := PList [R1; R2; R3; R4]) eq_refl eq_refl eq_refl eq_refl)).
Defined.

(** A name that is a number: the build goes through, the serialiser does
    not, and the document on file is gone. *)
Lemma update_kml_write_failure_witness :
  network W8 (fetches W8) = Ok (PList [R1; R8]) /\
  py_len (PList [R1; R8]) = Ok 2%nat /\
  (exists tree,
     fst (build_kml (H := picky_lib) (PList [R1; R8]) (tick 2 W8)) = Ok tree /\
     et_serialize (PyLib := picky_lib) tree =
       ("<?xml version='1.0' encoding='utf-8'?>", Some TypeError)) /\
  kml_file W8 = Some "<kml/>" /\
  kml_file (snd (update_kml (H := picky_lib) W8)) =
    Some "<?xml version='1.0' encoding='utf-8'?>".
Proof.
  split; [reflexivity|]. split; [reflexivity|]. split.
  - eexists. split; reflexivity.
  - split; [reflexivity|].
    exact (proj1 (update_kml_write_failure (H := picky_lib) W8
                    (nodes := PList [R1; R8]) eq_refl eq_refl eq_refl eq_refl)).
Defined.

Lemma written_line_means_complete_witness :
  In LINE_WRITTEN
     (skipn (List.length (stdout W0))
            (map log_text (stdout (snd (update_kml (H := plain_lib) W0))))) /\
  exists nodes tree content,
    network W0 (fetches W0) = Ok nodes /\
    fst (build_kml (H := plain_lib) nodes (tick 2 W0)) = Ok tree /\
    et_serialize (PyLib := plain_lib) tree = (content, None) /\
    kml_file (snd (update_kml (H := plain_lib) W0)) = Some content.
Proof.
  assert (Hin : In LINE_WRITTEN
     (skipn (List.length (stdout W0))
            (map log_text (stdout (snd (update_kml (H := plain_lib) W0))))))
    by (vm_compute; right; right; left; reflexivity).
  split; [exact Hin|].
  exact (written_line_means_complete (H := plain_lib) W0 Hin).
Defined.

Lemma served_once_served_for_ever_witness :
  (exists content, serve_kml (sys_world DOWN) = SendFile content KML_MIMETYPE) /\
  steps (H := plain_lib) DOWN
        (System (snd (update_kml (H := plain_lib) (sys_world DOWN))) [] 0) /\
  exists content',
    serve_kml (snd (update_kml (H := plain_lib) (sys_world DOWN))) =
    SendFile content' KML_MIMETYPE.
Proof.
  assert (Hserved : exists content,
            serve_kml (sys_world DOWN) = SendFile content KML_MIMETYPE)
    by (eexists; reflexivity).
  assert (Hsteps : steps (H := plain_lib) DOWN
            (System (snd (update_kml (H := plain_lib) (sys_world DOWN))) [] 0))
    by (apply (update_kml_steps (H := plain_lib) DOWN); reflexivity).
  split; [exact Hserved|]. split; [exact Hsteps|].
  exact (served_once_served_for_ever (H := plain_lib) Hserved Hsteps).
Defined.

Lemma api_down_same_answer_witness :
  (forall n, exists e, network (sys_world DOWN) n = Raise e) /\
  steps (H := plain_lib) DOWN
        (System (snd (update_kml (H := plain_lib) (sys_world DOWN))) [] 0) /\
  serve_kml (sys_world (System (snd (update_kml (H := plain_lib) (sys_world DOWN))) [] 0)) =
  serve_kml (sys_world DOWN).
Proof.
  assert (Hdown : forall n, exists e, network (sys_world DOWN) n = Raise e)
    by (intros n; exists OSError; reflexivity).
  assert (Hsteps : steps (H := plain_lib) DOWN
            (System (snd (update_kml (H := plain_lib) (sys_world DOWN))) [] 0))
    by (apply (update_kml_steps (H := plain_lib) DOWN); reflexivity).
  split; [exact Hdown|]. split; [exact Hsteps|].
  exact (api_down_same_answer (H := plain_lib) Hdown Hsteps).
Defined.

Lemma build_kml_still_clock_witness :
  (forall n, clock W0 n = NOW * MICRO) /\
  exists doc w',
    build_kml (H := plain_lib) (PList [R2]) W0 = (Ok doc, w') /\
    Forall2 (fun node pm =>
               exists d reported,
                 node = PDict d /\
                 fromtimestamp (H := plain_lib) (field d "time" (PInt 0)) = Ok reported /\
                 path_text HREF pm =
                   Some (PStr (marker (classify (field d "keyed" (PStr "0"))
                                                reported (NOW * MICRO)))))
            (filter eligible [R2]) (placemarks doc).
Proof.
  assert (Hnow : forall n, clock W0 n = NOW * MICRO) by (intros n; reflexivity).
  split; [exact Hnow|].
  eexists. eexists. split; [reflexivity|].
  exact (build_kml_still_clock (H := plain_lib) [R2] W0 Hnow eq_refl).
Defined.
